(** * Content pipeline of the portfolio site: loaders, sorters and view helpers

    A shallow embedding of the content libraries [lib/ventures.ts] and
    [lib/mdx.ts] (the two halves of [src/unnamed/part_006]) and
    [src/lib/experiences.ts], of the table of contents of
    [src/app/blog/[slug]/page.tsx] and of the icon lookup of
    [src/components/ui/venture-card.tsx].

    Conventions of the embedding.
    - A JavaScript string is a [string]: a sequence of code units below 256
      (the Latin-1 range of UTF-16).  On that range [\s], [toLowerCase] and
      the character classes below are exact.
    - A JavaScript number that the code only uses as an integer is a [Z];
      [NaN] is kept apart where the code can produce it.
    - The file system under [process.cwd()] is a tree of directories and
      regular files; access rights and input-output errors are not part of
      it.  A loader is a function from the world (file system and console)
      to a result and a new world.  An exception is the result [Throw].
    - A header is cast to its interface, never checked.  A header is a
      record whose fields have the types of the interface and may each be
      absent; a value of another type than the declared one is outside the
      embedding.
    - [gray-matter] and [Date] parsing belong to the runtime: they are
      variables of the sections that use them.  The loaders of Part 1 take
      gray-matter as a function of the text, which it is on the texts that a
      process meets for the first time.  gray-matter keeps a cache, though:
      [GrayMatter] has it, and [Process] has the loaders in a process, where
      one load can be followed by another. *)

From Stdlib Require Import ZArith NArith Bool List Ascii String Lia.
From Stdlib Require Import DecimalString Sorted Permutation.
Import ListNotations.

Local Open Scope string_scope.
Local Open Scope list_scope.

Set Default Proof Using "Type".
Local Set Warnings "-register-all".

(** * Part 1: the code *)

(** ** Strings *)

Module Str.

Definition code (c : ascii) : N := N_of_ascii c.

Definition between (lo hi : N) (c : ascii) : bool :=
  ((lo <=? code c) && (code c <=? hi))%N.

(** The class [\s] on code units below 256: TAB, LF, VT, FF, CR, space and
    the no-break space. *)
Definition isWhiteSpace (c : ascii) : bool :=
  between 9 13 c || (code c =? 32)%N || (code c =? 160)%N.

(** The class [[a-z0-9]] and its complement [[^a-z0-9]]. *)
Definition isLowerAlnum (c : ascii) : bool :=
  between 97 122 c || between 48 57 c.

Definition notLowerAlnum (c : ascii) : bool := negb (isLowerAlnum c).

(** [String.prototype.toLowerCase] on one code unit: A-Z and the Latin-1
    capitals (all of 192..222 but the multiplication sign 215). *)
Definition toLowerCase_char (c : ascii) : ascii :=
  if between 65 90 c || between 192 214 c || between 216 222 c
  then ascii_of_N (code c + 32)
  else c.

Fixpoint toLowerCase (s : string) : string :=
  match s with
  | EmptyString => EmptyString
  | String c s' => String (toLowerCase_char c) (toLowerCase s')
  end.

Definition snoc (s : string) (c : ascii) : string := s ++ String c EmptyString.

(** [s.split(re)] for a regular expression [re] that matches the maximal
    runs of the class [sep] (such as [/\s+/]).  [piece] is the piece being
    read and [in_sep] says that the previous code unit was a separator, so
    that a run of separators ends one piece only.  The empty string gives
    one empty piece. *)
Fixpoint split_go (sep : ascii -> bool) (s piece : string) (in_sep : bool)
  : list string :=
  match s with
  | EmptyString => [piece]
  | String c s' =>
      if sep c then
        if in_sep then split_go sep s' piece true
        else piece :: split_go sep s' EmptyString true
      else split_go sep s' (snoc piece c) false
  end.

Definition split (sep : ascii -> bool) (s : string) : list string :=
  split_go sep s EmptyString false.

(** [s.replace(re, rep)] for a global [re] that matches the maximal runs of
    the class [cls] (such as [/[^a-z0-9]+/g]): every run becomes one [rep]. *)
Fixpoint replace_runs (cls : ascii -> bool) (rep s : string) (in_run : bool)
  : string :=
  match s with
  | EmptyString => EmptyString
  | String c s' =>
      if cls c then
        if in_run then replace_runs cls rep s' true
        else rep ++ replace_runs cls rep s' true
      else String c (replace_runs cls rep s' false)
  end.

Definition dash : ascii := "-"%char.

(** The alternative [^-] of [/^-|-$/g]: a dash at index 0. *)
Definition strip_leading_dash (s : string) : string :=
  match s with
  | String c s' => if Ascii.eqb c dash then s' else s
  | EmptyString => EmptyString
  end.

(** The alternative [-$]: a dash at the last index. *)
Fixpoint strip_trailing_dash (s : string) : string :=
  match s with
  | EmptyString => EmptyString
  | String c EmptyString => if Ascii.eqb c dash then EmptyString else s
  | String c s' => String c (strip_trailing_dash s')
  end.

(** [s.replace(/^-|-$/g, "")].  The scan goes left to right: index 0 can
    only match [^-]; every later index can only match [-$], and only at the
    end of what is left. *)
Definition strip_dashes (s : string) : string :=
  strip_trailing_dash (strip_leading_dash s).

(** [s.trim()]: the white space and line terminators it removes are the
    class [\s]. *)
Fixpoint trimStart (s : string) : string :=
  match s with
  | String c s' => if isWhiteSpace c then trimStart s' else s
  | EmptyString => EmptyString
  end.

Fixpoint trimEnd (s : string) : string :=
  match s with
  | EmptyString => EmptyString
  | String c s' =>
      match trimEnd s' with
      | EmptyString =>
          if isWhiteSpace c then EmptyString else String c EmptyString
      | t => String c t
      end
  end.

Definition trim (s : string) : string := trimEnd (trimStart s).

(** [s.endsWith(suffix)]. *)
Definition endsWith (s suffix : string) : bool :=
  let n := String.length s in
  let m := String.length suffix in
  (m <=? n)%nat && String.eqb (substring (n - m) m s) suffix.

(** [s.replace(/\.mdx$/, "")]: the only possible match is at the end. *)
Definition strip_mdx (s : string) : string :=
  if endsWith s ".mdx" then substring 0 (String.length s - 4) s else s.

(** Template literal of a non-negative integer. *)
Definition of_N (n : N) : string := NilZero.string_of_uint (N.to_uint n).

End Str.

(** [Math.ceil(n / d)] for non-negative integers [n] and positive [d]. *)
Definition Math_ceil_div (n d : N) : N :=
  (n / d + (if n mod d =? 0 then 0 else 1))%N.

(** ** The world: file system and console *)

Module Fs.

(** A node of the tree under [process.cwd()].  The entries of a directory
    are kept in enumeration order, the order [readdirSync] returns. *)
Inductive node : Type :=
| File (data : string)
| Dir (entries : list (string * node)).

Definition path := list string.

Fixpoint lookup_entry (name : string) (es : list (string * node))
  : option node :=
  match es with
  | [] => None
  | (n, x) :: es' => if String.eqb n name then Some x else lookup_entry name es'
  end.

Fixpoint update_entry (name : string) (x : node) (es : list (string * node))
  : list (string * node) :=
  match es with
  | [] => []
  | (n, y) :: es' =>
      if String.eqb n name then (n, x) :: es'
      else (n, y) :: update_entry name x es'
  end.

Fixpoint lookup (p : path) (root : node) : option node :=
  match p with
  | [] => Some root
  | name :: p' =>
      match root with
      | File _ => None
      | Dir es =>
          match lookup_entry name es with
          | Some x => lookup p' x
          | None => None
          end
      end
  end.

(** The chain of empty directories [mkdir -p] creates below a new entry. *)
Fixpoint fresh_dirs (p : path) : node :=
  match p with
  | [] => Dir []
  | name :: p' => Dir [(name, fresh_dirs p')]
  end.

(** [mkdir -p]: [None] when a component of the path is a regular file. *)
Fixpoint mkdirp (p : path) (root : node) : option node :=
  match p with
  | [] => match root with Dir _ => Some root | File _ => None end
  | name :: p' =>
      match root with
      | File _ => None
      | Dir es =>
          match lookup_entry name es with
          | Some x =>
              match mkdirp p' x with
              | Some x' => Some (Dir (update_entry name x' es))
              | None => None
              end
          | None => Some (Dir (es ++ [(name, fresh_dirs p')]))
          end
      end
  end.

End Fs.

Inductive error : Type :=
| ENOENT | ENOTDIR | EISDIR | YAMLException.

Inductive result (A : Type) : Type :=
| Ok (a : A)
| Throw (e : error).
Arguments Ok {A} a.
Arguments Throw {A} e.

Record world : Type := World {
  fs : Fs.node;
  console : list string
}.

(** A computation that reads and writes the world and may throw. *)
Definition M (A : Type) : Type := world -> result A * world.

Definition ret {A} (a : A) : M A := fun w => (Ok a, w).

Definition throw {A} (e : error) : M A := fun w => (Throw e, w).

Definition bind {A B} (m : M A) (k : A -> M B) : M B :=
  fun w =>
    match m w with
    | (Ok a, w') => k a w'
    | (Throw e, w') => (Throw e, w')
    end.

(** [try { m } catch (error) { h error }]. *)
Definition try_catch {A} (m : M A) (h : error -> M A) : M A :=
  fun w =>
    match m w with
    | (Ok a, w') => (Ok a, w')
    | (Throw e, w') => h e w'
    end.

Declare Scope monad_scope.
Delimit Scope monad_scope with monad.
Notation "x <- m ;; k" := (bind m (fun x => k))
  (at level 61, m at next level, right associativity) : monad_scope.
Notation "m ;;; k" := (bind m (fun _ => k))
  (at level 61, right associativity) : monad_scope.
Local Open Scope monad_scope.

(** [array.map(f)] for an effectful callback: the calls run left to right
    and the first exception ends the loop. *)
Fixpoint mapM {A B} (f : A -> M B) (l : list A) : M (list B) :=
  match l with
  | [] => ret []
  | a :: l' => b <- f a ;; bs <- mapM f l' ;; ret (b :: bs)
  end.

(** *** The [fs] calls the loaders make *)

Definition existsSync (p : Fs.path) : M bool :=
  fun w =>
    (Ok (match Fs.lookup p (fs w) with Some _ => true | None => false end), w).

Definition readdirSync (p : Fs.path) : M (list string) :=
  fun w =>
    match Fs.lookup p (fs w) with
    | Some (Fs.Dir es) => (Ok (map fst es), w)
    | Some (Fs.File _) => (Throw ENOTDIR, w)
    | None => (Throw ENOENT, w)
    end.

Definition readFileSync (p : Fs.path) : M string :=
  fun w =>
    match Fs.lookup p (fs w) with
    | Some (Fs.File data) => (Ok data, w)
    | Some (Fs.Dir _) => (Throw EISDIR, w)
    | None => (Throw ENOENT, w)
    end.

(** [fs.mkdirSync(p, { recursive: true })]. *)
Definition mkdirSync_recursive (p : Fs.path) : M unit :=
  fun w =>
    match Fs.mkdirp p (fs w) with
    | Some root' => (Ok tt, {| fs := root'; console := console w |})
    | None => (Throw ENOTDIR, w)
    end.

Definition console_error (msg : string) : M unit :=
  fun w => (Ok tt, {| fs := fs w; console := console w ++ [msg] |}).

(** [path.join(dir, name)] for a [name] that is a single component, as every
    name built from a directory listing is. *)
Definition path_join (dir : Fs.path) (name : string) : Fs.path := dir ++ [name].

(** ** Numbers and [Array.prototype.sort] *)

Inductive number : Type :=
| Num (z : Z)
| NaN.

Definition number_sub (a b : number) : number :=
  match a, b with
  | Num x, Num y => Num (x - y)
  | _, _ => NaN
  end.

(** What the sort makes of the comparator's answer: [NaN] counts as [0], and
    only a positive answer puts the second argument first. *)
Definition comes_after {A} (comparefn : A -> A -> number) (a b : A) : bool :=
  match comparefn a b with
  | Num v => (0 <? v)%Z
  | NaN => false
  end.

Fixpoint sort_insert {A} (comparefn : A -> A -> number) (a : A) (l : list A)
  : list A :=
  match l with
  | [] => [a]
  | b :: l' =>
      if comes_after comparefn a b then b :: sort_insert comparefn a l'
      else a :: l
  end.

(** [array.sort(comparefn)].  The language fixes the result for a consistent
    comparator: the sorted permutation that keeps equal elements in their
    original order.  This is the stable insertion sort, which yields it; for
    a comparator that is not consistent the language leaves the order to the
    engine, and this is one engine. *)
Definition Array_sort {A} (comparefn : A -> A -> number) (l : list A)
  : list A :=
  fold_right (sort_insert comparefn) [] l.

(** A parsed content file: [{ slug, frontmatter, content }]. *)
Record Loaded (F : Type) : Type := mkLoaded {
  slug : string;
  frontmatter : F;
  content : string
}.
Arguments mkLoaded {F} slug frontmatter content.
Arguments slug {F} l.
Arguments frontmatter {F} l.
Arguments content {F} l.

(** [array.filter(x => x !== null)]. *)
Fixpoint filter_not_null {A} (l : list (option A)) : list A :=
  match l with
  | [] => []
  | Some a :: l' => a :: filter_not_null l'
  | None :: l' => filter_not_null l'
  end.

(** ** Ventures ([src/lib/ventures.ts]) *)

Module Ventures.

Definition venturesDirectory : Fs.path := ["content"; "ventures"].

Inductive Status : Type := building | live | concept.

(** [VentureFrontmatter].  The header is cast ([data as VentureFrontmatter]),
    never checked, so every field, also a required one, can be absent. *)
Record VentureFrontmatter : Type := mkFrontmatter {
  title : option string;
  description : option string;
  icon : option string;
  status : option Status;
  github : option string;
  demo : option string;
  link : option string;
  technologies : option (list string);
  featured : option bool;
  order : option Z;
  coverImage : option string;
  screenshots : option (list string);
  metrics : option (list (string * (string + Z)))
}.

Definition Venture : Type := Loaded VentureFrontmatter.

(** The header has every field the interface requires. *)
Definition complete (f : VentureFrontmatter) : bool :=
  match title f, description f, icon f, status f, technologies f with
  | Some _, Some _, Some _, Some _, Some _ => true
  | _, _, _, _, _ => false
  end.

Section Loader.

(** [matter(fileContents)] followed by the cast of [data]: [None] when
    gray-matter throws. *)
Variable matter : string -> option (VentureFrontmatter * string).

Definition getAllVentureSlugs : M (list string) :=
  found <- existsSync venturesDirectory ;;
  if negb found then ret []
  else
    fileNames <- readdirSync venturesDirectory ;;
    ret (map Str.strip_mdx
           (filter (fun fileName => Str.endsWith fileName ".mdx") fileNames)).

Definition getVentureBySlug (slug : string) : M (option Venture) :=
  try_catch
    (let fullPath := path_join venturesDirectory (slug ++ ".mdx") in
     fileContents <- readFileSync fullPath ;;
     match matter fileContents with
     | Some (data, content) => ret (Some (mkLoaded slug data content))
     | None => throw YAMLException
     end)
    (fun _ =>
       console_error ("Error reading venture " ++ slug ++ ":") ;;;
       ret None).

(** [a.frontmatter.order ?? 999]. *)
Definition order_or_default (v : Venture) : Z :=
  match order (frontmatter v) with
  | Some n => n
  | None => 999
  end.

Definition compareVentures (a b : Venture) : number :=
  let orderA := order_or_default a in
  let orderB := order_or_default b in
  Num (orderA - orderB).

Definition getAllVentures : M (list Venture) :=
  slugs <- getAllVentureSlugs ;;
  loaded <- mapM getVentureBySlug slugs ;;
  ret (Array_sort compareVentures (filter_not_null loaded)).


End Loader.

End Ventures.

(** ** Blog posts ([src/lib/mdx.ts], [src/types/blog.ts]) *)

Module Blog.

Definition POSTS_PATH : Fs.path := ["content"; "blog"].

(** [BlogFrontmatter]; cast, not checked, like the other headers. *)
Record BlogFrontmatter : Type := mkFrontmatter {
  title : option string;
  description : option string;
  date : option string;
  author : option string;
  category : option string;
  tags : option (list string);
  coverImage : option string;
  readingTime : option string;
  published : option bool
}.

Definition BlogPost : Type := Loaded BlogFrontmatter.

Definition complete (f : BlogFrontmatter) : bool :=
  match title f, description f, date f, author f, category f, tags f with
  | Some _, Some _, Some _, Some _, Some _, Some _ => true
  | _, _, _, _, _, _ => false
  end.

Section Loader.

Variable matter : string -> option (BlogFrontmatter * string).

(** [new Date(s).getTime()] for a string [s]. *)
Variable Date_getTime : string -> number.

Definition getAllPostSlugs : M (list string) :=
  found <- existsSync POSTS_PATH ;;
  if negb found then
    mkdirSync_recursive POSTS_PATH ;;;
    ret []
  else
    files <- readdirSync POSTS_PATH ;;
    ret (map Str.strip_mdx
           (filter (fun file => Str.endsWith file ".mdx") files)).

Definition getPostBySlug (slug : string) : M (option BlogPost) :=
  try_catch
    (let fullPath := path_join POSTS_PATH (slug ++ ".mdx") in
     fileContents <- readFileSync fullPath ;;
     match matter fileContents with
     | Some (data, content) => ret (Some (mkLoaded slug data content))
     | None => throw YAMLException
     end)
    (fun _ =>
       console_error ("Error reading post " ++ slug ++ ":") ;;;
       ret None).

(** [new Date(post.frontmatter.date).getTime()]; an absent date is
    [new Date(undefined)], the invalid date. *)
Definition post_time (p : BlogPost) : number :=
  match date (frontmatter p) with
  | Some s => Date_getTime s
  | None => NaN
  end.

Definition comparePosts (a b : BlogPost) : number :=
  number_sub (post_time b) (post_time a).

(** [post.frontmatter.published !== false]. *)
Definition published_not_false (p : BlogPost) : bool :=
  match published (frontmatter p) with
  | Some false => false
  | _ => true
  end.

Definition getAllPosts (includeUnpublished : bool) : M (list BlogPost) :=
  slugs <- getAllPostSlugs ;;
  loaded <- mapM getPostBySlug slugs ;;
  ret (Array_sort comparePosts
         (filter (fun post => includeUnpublished || published_not_false post)
            (filter_not_null loaded))).

End Loader.

Definition wordsPerMinute : N := 200.

(** [content.split(/\s+/).length]. *)
Definition wordCount (content : string) : N :=
  N.of_nat (List.length (Str.split Str.isWhiteSpace content)).

Definition calculateReadingTime (content : string) : string :=
  let minutes := Math_ceil_div (wordCount content) wordsPerMinute in
  Str.of_N minutes ++ " min read".

End Blog.

(** ** The table of contents ([src/app/blog/[slug]/page.tsx]) *)

Module BlogPage.

Record TocItem : Type := mkTocItem {
  id : string;
  title : string;
  level : nat
}.

(** The chain [title.toLowerCase().replace(/[^a-z0-9]+/g, "-")
    .replace(/^-|-$/g, "")] that gives the [id]. *)
Definition heading_id (title : string) : string :=
  Str.strip_dashes
    (Str.replace_runs Str.notLowerAlnum "-" (Str.toLowerCase title) false).

(** One turn of the loop of [extractTableOfContents], from the two groups
    [match[1]] and [match[2]] of a match of [headingRegex]. *)
Definition toc_item (hashes text : string) : TocItem :=
  let level := String.length hashes in
  let title := Str.trim text in
  let id := heading_id title in
  mkTocItem id title level.

(** The loop, over the successive matches of [headingRegex] in the content. *)
Definition tableOfContents (matches : list (string * string)) : list TocItem :=
  map (fun m => toc_item (fst m) (snd m)) matches.

End BlogPage.

(** ** Experiences ([src/lib/experiences.ts]) *)

Module Experiences.

Definition experiencesDirectory : Fs.path := ["content"; "experiences"].

Record ExperienceFrontmatter : Type := mkFrontmatter {
  title : option string;
  company : option string;
  location : option string;
  startDate : option string;
  endDate : option string;
  current : option bool;
  description : option string;
  achievements : option (list string);
  technologies : option (list string);
  order : option Z
}.

Definition Experience : Type := Loaded ExperienceFrontmatter.

Definition complete (f : ExperienceFrontmatter) : bool :=
  match title f, company f, startDate f, endDate f with
  | Some _, Some _, Some _, Some _ =>
      match current f, description f, achievements f, technologies f with
      | Some _, Some _, Some _, Some _ => true
      | _, _, _, _ => false
      end
  | _, _, _, _ => false
  end.

Section Loader.

Variable matter : string -> option (ExperienceFrontmatter * string).

Definition getAllExperienceSlugs : M (list string) :=
  found <- existsSync experiencesDirectory ;;
  if negb found then ret []
  else
    fileNames <- readdirSync experiencesDirectory ;;
    ret (map Str.strip_mdx
           (filter (fun fileName => Str.endsWith fileName ".mdx") fileNames)).

Definition getExperienceBySlug (slug : string) : M (option Experience) :=
  try_catch
    (let fullPath := path_join experiencesDirectory (slug ++ ".mdx") in
     fileContents <- readFileSync fullPath ;;
     match matter fileContents with
     | Some (data, content) => ret (Some (mkLoaded slug data content))
     | None => throw YAMLException
     end)
    (fun _ =>
       console_error ("Error reading experience " ++ slug ++ ":") ;;;
       ret None).

(** The truth value of [e.frontmatter.current]; an absent field is
    [undefined], which is falsy. *)
Definition is_current (e : Experience) : bool :=
  match current (frontmatter e) with
  | Some b => b
  | None => false
  end.

Definition compareExperiences (a b : Experience) : number :=
  match order (frontmatter a), order (frontmatter b) with
  | Some oa, Some ob => Num (oa - ob)
  | _, _ =>
      if is_current a && negb (is_current b) then Num (-1)
      else if negb (is_current a) && is_current b then Num 1
      else Num 0
  end.

Definition getAllExperiences : M (list Experience) :=
  slugs <- getAllExperienceSlugs ;;
  loaded <- mapM getExperienceBySlug slugs ;;
  ret (Array_sort compareExperiences (filter_not_null loaded)).

End Loader.

End Experiences.

(** ** The icon of a venture card ([src/components/ui/venture-card.tsx]) *)

Module VentureCard.

(** What [iconMap[key]] can evaluate to: one of the imported icons, or a
    member that the object literal inherits from [Object.prototype]. *)
Inductive component : Type :=
| Scale | Wallet | Church | TrendingUp | Zap | Users | Leaf | Heart | BookOpen
| ObjectPrototypeMember (name : string).

(** The own properties of the literal [iconMap]. *)
Definition iconMap : list (string * component) :=
  [ ("scale", Scale); ("wallet", Wallet); ("church", Church);
    ("trending", TrendingUp); ("zap", Zap); ("users", Users);
    ("leaf", Leaf); ("heart", Heart); ("book", BookOpen) ].

(** The properties of [Object.prototype], the prototype of every object
    literal.  Each holds a function, or for [__proto__] an object: all are
    truthy. *)
Definition Object_prototype : list string :=
  [ "constructor"; "hasOwnProperty"; "isPrototypeOf"; "propertyIsEnumerable";
    "toLocaleString"; "toString"; "valueOf"; "__proto__";
    "__defineGetter__"; "__defineSetter__"; "__lookupGetter__";
    "__lookupSetter__" ].

Fixpoint own_property (key : string) (o : list (string * component))
  : option component :=
  match o with
  | [] => None
  | (k, v) :: o' => if String.eqb k key then Some v else own_property key o'
  end.

(** [iconMap[key]]: the own property, else the inherited one, else
    [undefined] ([None]). *)
Definition iconMap_get (key : string) : option component :=
  match own_property key iconMap with
  | Some v => Some v
  | None =>
      if existsb (String.eqb key) Object_prototype
      then Some (ObjectPrototypeMember key)
      else None
  end.

(** [const Icon = iconMap[venture.icon] || Scale]. *)
Definition Icon (icon : string) : component :=
  match iconMap_get icon with
  | Some v => v
  | None => Scale
  end.

Definition recognized (icon : string) : bool :=
  match own_property icon iconMap with Some _ => true | None => false end.

End VentureCard.


(** ** More of the code: what is built on the loaders *)

(** How a call ends when it can also end in the [TypeError] of a property
    read on [undefined]. *)
Inductive outcome (A : Type) : Type :=
| Returned (a : A)
| Thrown (e : error)
| TypeError.
Arguments Returned {A} a.
Arguments Thrown {A} e.
Arguments TypeError {A}.

(** [array.filter(f)] for a callback that can throw: the calls run left to
    right and [None] is the exception of the first call that throws. *)
Fixpoint filter_throwing {A} (f : A -> option bool) (l : list A)
  : option (list A) :=
  match l with
  | [] => Some []
  | a :: l' =>
      match f a with
      | None => None
      | Some keep =>
          match filter_throwing f l' with
          | None => None
          | Some kept => Some (if keep then a :: kept else kept)
          end
      end
  end.

(** [array.findIndex(p)]: the first index where [p] holds, or -1. *)
Fixpoint findIndex_from {A} (p : A -> bool) (l : list A) (i : Z) : Z :=
  match l with
  | [] => (-1)%Z
  | a :: l' => if p a then i else findIndex_from p l' (i + 1)%Z
  end.

Definition findIndex {A} (p : A -> bool) (l : list A) : Z :=
  findIndex_from p l 0%Z.

(** [array[i]]: [undefined] outside the array. *)
Definition at_index {A} (l : list A) (i : Z) : option A :=
  if (i <? 0)%Z then None else nth_error l (Z.to_nat i).


(** *** The queries of [lib/mdx.ts] *)

Module BlogQueries.

(** [post.frontmatter.category.toLowerCase() === category.toLowerCase()];
    without a category the method call is on [undefined]. *)
Definition category_is (category : string) (post : Blog.BlogPost)
  : option bool :=
  match Blog.category (frontmatter post) with
  | Some c => Some (String.eqb (Str.toLowerCase c) (Str.toLowerCase category))
  | None => None
  end.

(** [post.frontmatter.tags.some((t) => t.toLowerCase() ===
    tag.toLowerCase())]. *)
Definition has_tag (tag : string) (post : Blog.BlogPost) : option bool :=
  match Blog.tags (frontmatter post) with
  | Some ts =>
      Some (existsb
              (fun t => String.eqb (Str.toLowerCase t) (Str.toLowerCase tag))
              ts)
  | None => None
  end.

Section Loader.

Variable matter : string -> option (Blog.BlogFrontmatter * string).
Variable Date_getTime : string -> number.

(** [getAllPosts().filter(f)]. *)
Definition filterPosts (f : Blog.BlogPost -> option bool)
  : world -> outcome (list Blog.BlogPost) * world :=
  fun w =>
    match Blog.getAllPosts matter Date_getTime false w with
    | (Ok posts, w') =>
        (match filter_throwing f posts with
         | Some kept => Returned kept
         | None => TypeError
         end, w')
    | (Throw e, w') => (Thrown e, w')
    end.

Definition getPostsByCategory (category : string)
  : world -> outcome (list Blog.BlogPost) * world :=
  filterPosts (category_is category).

Definition getPostsByTag (tag : string)
  : world -> outcome (list Blog.BlogPost) * world :=
  filterPosts (has_tag tag).

End Loader.

End BlogQueries.

(** *** The page of a post ([src/app/blog/[slug]/page.tsx]) *)

Module BlogPostPage.

Record Adjacent : Type := mkAdjacent {
  previous : option Blog.BlogPost;
  next : option Blog.BlogPost
}.

(** The body of [getAdjacentPosts] once [allPosts] is loaded. *)
Definition adjacent (allPosts : list Blog.BlogPost) (currentSlug : string)
  : Adjacent :=
  let currentIndex :=
    findIndex (fun post => String.eqb (slug post) currentSlug) allPosts in
  mkAdjacent
    (if (currentIndex <? Z.of_nat (List.length allPosts) - 1)%Z
     then at_index allPosts (currentIndex + 1)%Z else None)
    (if (0 <? currentIndex)%Z
     then at_index allPosts (currentIndex - 1)%Z else None).

(** [frontmatter.readingTime || calculateReadingTime(content)]: an absent
    or empty [readingTime] is falsy. *)
Definition readingTime (post : Blog.BlogPost) : string :=
  match Blog.readingTime (frontmatter post) with
  | Some EmptyString | None => Blog.calculateReadingTime (content post)
  | Some given => given
  end.

Section Loader.

Variable matter : string -> option (Blog.BlogFrontmatter * string).
Variable Date_getTime : string -> number.

(** The slugs of the params [generateStaticParams] returns. *)
Definition generateStaticParams : M (list string) :=
  slugs <- Blog.getAllPostSlugs ;;
  ret (map (fun slug => slug) slugs).


End Loader.

End BlogPostPage.

(** *** The blog section of the home page (the last part of
    [src/unnamed/part_002]) *)

Module BlogSection.

Section Loader.

Variable matter : string -> option (Blog.BlogFrontmatter * string).
Variable Date_getTime : string -> number.


End Loader.

End BlogSection.

(** *** The page of a project ([src/app/projects/[slug]/page.tsx]) *)

Module ProjectPage.

Section Loader.

Variable matter : string -> option (Ventures.VentureFrontmatter * string).

(** The slugs of the params [generateStaticParams] returns. *)
Definition generateStaticParams : M (list string) :=
  ventures <- Ventures.getAllVentures matter ;;
  ret (map (fun venture => slug venture) ventures).

End Loader.

End ProjectPage.

(** *** The venture of a card ([src/types/venture.ts]) and what the card
    shows of it ([src/components/ui/venture-card.tsx]) *)

Module Card.

(** [Venture] of [src/types/venture.ts], as [convertMdxVenture] fills it: the
    fields copied from the header can be absent, [metrics] cannot.  The
    metrics object is the list of its entries in enumeration order. *)
Record Venture : Type := mkVenture {
  id : string;
  name : option string;
  description : option string;
  icon : option string;
  status : option Ventures.Status;
  metrics : list (string * (string + Z));
  technologies : option (list string);
  coverImage : option string;
  screenshots : option (list string);
  link : option string;
  github : option string
}.

(** [convertMdxVenture] of [src/app/page.tsx] and of the ventures section. *)
Definition convertMdxVenture (mdxVenture : Ventures.Venture) : Venture :=
  let f := frontmatter mdxVenture in
  mkVenture
    (slug mdxVenture)
    (Ventures.title f)
    (Ventures.description f)
    (Ventures.icon f)
    (Ventures.status f)
    (match Ventures.metrics f with Some m => m | None => [] end)
    (Ventures.technologies f)
    (Ventures.coverImage f)
    (Ventures.screenshots f)
    (Ventures.link f)
    (Ventures.github f).

Record Metric : Type := mkMetric {
  label : string;
  value : string;
  metric_icon : VentureCard.component
}.

(** The literal [iconMapping] of [displayMetrics]. *)
Definition iconMapping : list (string * VentureCard.component) :=
  [ ("users", VentureCard.Users); ("accuracy", VentureCard.TrendingUp);
    ("speed", VentureCard.Zap); ("savings", VentureCard.TrendingUp);
    ("farmers", VentureCard.Users); ("consultations", VentureCard.Users);
    ("students", VentureCard.Users); ("improvement", VentureCard.TrendingUp);
    ("yield", VentureCard.TrendingUp); ("response", VentureCard.Zap);
    ("subjects", VentureCard.TrendingUp) ].

(** [iconMapping[key.toLowerCase()] || TrendingUp]. *)
Definition icon_of (key : string) : VentureCard.component :=
  let k := Str.toLowerCase key in
  match VentureCard.own_property k iconMapping with
  | Some v => v
  | None =>
      if existsb (String.eqb k) VentureCard.Object_prototype
      then VentureCard.ObjectPrototypeMember k
      else VentureCard.TrendingUp
  end.


Definition is_legacy_key (key : string) : bool :=
  String.eqb key "customLabel" || String.eqb key "customValue".

Section Runtime.

(** [String.prototype.toUpperCase], which leaves the Latin-1 range. *)
Variable toUpperCase : string -> string.

(** [String(n)] for a number [n], the conversion of the runtime: decimal
    digits for the integers of ordinary size, exponent notation from 1e21. *)
Variable Number_toString : Z -> string.

(** [String(value)] for a metric, a string or an integer. *)
Definition String_of (value : string + Z) : string :=
  match value with
  | inl s => s
  | inr z => Number_toString z
  end.

(** [key.charAt(0).toUpperCase() + key.slice(1)]. *)
Definition capitalize (key : string) : string :=
  match key with
  | EmptyString => toUpperCase EmptyString
  | String c rest => toUpperCase (String c EmptyString) ++ rest
  end.

(** The loop over [Object.entries(venture.metrics)]. *)
Definition regular_metrics (o : list (string * (string + Z))) : list Metric :=
  flat_map
    (fun entry =>
       let '(key, value) := entry in
       if is_legacy_key key then []
       else [mkMetric (capitalize key) (String_of value) (icon_of key)])
    o.



End Runtime.

(** The chips of the technology stack: [technologies.slice(0, 4)] and the
    counter shown when [technologies.length > 4]. *)
Definition shown_technologies (technologies : list string) : list string :=
  firstn 4 technologies.

Definition more_technologies (technologies : list string) : option nat :=
  if (4 <? List.length technologies)%nat
  then Some (List.length technologies - 4)%nat
  else None.

(** The same for the tags of a post card
    ([src/components/ui/blog-post-list.tsx]), with 3. *)
Definition shown_tags (tags : list string) : list string := firstn 3 tags.

Definition more_tags (tags : list string) : option nat :=
  if (3 <? List.length tags)%nat
  then Some (List.length tags - 3)%nat
  else None.

End Card.

(** ** The loaders in a process: the cache of gray-matter *)

(** The three libraries import the same module [gray-matter], and call it
    without options.  [matter] (index.js of gray-matter 4.0.3) keeps every
    file it is given in the object [matter.cache], under the text of the
    file, and stores it there before it parses it:
    [[
      if (input === '') return { data: {}, content: input, ... };
      let file = toFile(input);
      const cached = matter.cache[file.content];
      if (!options) {
        if (cached) { file = Object.assign({}, cached); ...; return file; }
        matter.cache[file.content] = file;
      }
      return parseMatter(file, options);
    ]]
    [toFile] makes the file [{ content: input, data: {} }], and
    [parseMatter] replaces [data] and [content] by the header and the body
    once the header is parsed.  So the file stored under a text that the
    YAML engine rejects keeps the header [{}] and the whole text as its
    content, and that is what a later call with the same text returns. *)

Module GrayMatter.

(** What [matter(input)] returns: a file with its [data] and [content], or
    the copy of a member of [Object.prototype], an object that has
    neither. *)
Inductive file (F : Type) : Type :=
| Parsed (data : F) (content : string)
| Inherited.
Arguments Parsed {F} data content.
Arguments Inherited {F}.

(** The own keys of [matter.cache]: the texts stored so far.  The file
    stored under a text is a function of the text, see [stored]. *)
Definition cache : Type := list string.

Definition cached (c : cache) (input : string) : bool :=
  existsb (String.eqb input) c.

(** [matter.cache] is an object literal: a text that is no key of its own
    and names a member of [Object.prototype] reads that member, which is
    truthy. *)
Definition inherited (input : string) : bool :=
  existsb (String.eqb input) VentureCard.Object_prototype.

Section Parser.

Context {F : Type}.

(** The header [{}], cast. *)
Variable empty : F.

(** [parseMatter(file)] on the file [toFile] makes of a text, followed by
    the cast of [data]: the header and the body, or [None] when the YAML
    engine throws. *)
Variable parseMatter : string -> option (F * string).

(** The file that [matter.cache] holds under [input] once [parseMatter]
    has run on it. *)
Definition stored (input : string) : file F :=
  match parseMatter input with
  | Some (data, content) => Parsed data content
  | None => Parsed empty input
  end.

Definition matter (input : string) (c : cache) : result (file F) * cache :=
  if String.eqb input "" then (Ok (Parsed empty ""), c)
  else if cached c input then (Ok (stored input), c)
  else if inherited input then (Ok Inherited, c)
  else
    match parseMatter input with
    | Some (data, content) => (Ok (Parsed data content), input :: c)
    | None => (Throw YAMLException, input :: c)
    end.

End Parser.

End GrayMatter.

(** What the sort makes of the answer of a comparator that returned. *)
Definition positive (v : number) : bool :=
  match v with
  | Num z => (0 <? z)%Z
  | NaN => false
  end.

(** [Array_sort] for a comparator that can throw: [None] is the exception
    of the first call that throws. *)
Fixpoint sort_insert_throwing {A} (comparefn : A -> A -> option number)
    (a : A) (l : list A) : option (list A) :=
  match l with
  | [] => Some [a]
  | b :: l' =>
      match comparefn a b with
      | None => None
      | Some v =>
          if positive v then
            match sort_insert_throwing comparefn a l' with
            | Some sorted => Some (b :: sorted)
            | None => None
            end
          else Some (a :: l)
      end
  end.

Definition Array_sort_throwing {A} (comparefn : A -> A -> option number)
    (l : list A) : option (list A) :=
  fold_right
    (fun a sorted =>
       match sorted with
       | Some sorted' => sort_insert_throwing comparefn a sorted'
       | None => None
       end)
    (Some []) l.

Module Process.

(** The state of a process: the world and the cache of gray-matter. *)
Record process : Type := mkProcess {
  world_of : world;
  matter_cache : GrayMatter.cache
}.

Definition P (A : Type) : Type := process -> result A * process.

Definition retP {A} (a : A) : P A := fun p => (Ok a, p).

Definition bindP {A B} (m : P A) (k : A -> P B) : P B :=
  fun p =>
    match m p with
    | (Ok a, p') => k a p'
    | (Throw e, p') => (Throw e, p')
    end.

Definition try_catchP {A} (m : P A) (h : error -> P A) : P A :=
  fun p =>
    match m p with
    | (Ok a, p') => (Ok a, p')
    | (Throw e, p') => h e p'
    end.

(** A computation on the world, run in a process. *)
Definition lift {A} (m : M A) : P A :=
  fun p =>
    match m (world_of p) with
    | (r, w') => (r, mkProcess w' (matter_cache p))
    end.

Declare Scope process_scope.
Delimit Scope process_scope with process.
Notation "x <- m ;; k" := (bindP m (fun x => k))
  (at level 61, m at next level, right associativity) : process_scope.
Notation "m ;;; k" := (bindP m (fun _ => k))
  (at level 61, right associativity) : process_scope.
Local Open Scope process_scope.

Fixpoint mapP {A B} (f : A -> P B) (l : list A) : P (list B) :=
  match l with
  | [] => retP []
  | a :: l' => b <- f a ;; bs <- mapP f l' ;; retP (b :: bs)
  end.

(** What a per-file loader returns when it does not return null:
    [{ slug, frontmatter: data, content }], where [data] and [content] are
    both [undefined] when [matter] returned the copy of an inherited
    member. *)
Inductive entry (F : Type) : Type :=
| Full (record : Loaded F)
| Hollow (slug : string).
Arguments Full {F} record.
Arguments Hollow {F} slug.

(** A callback that reads a property of [frontmatter]: on a record whose
    [frontmatter] is [undefined] the read throws a [TypeError]. *)
Definition on_frontmatter {F A} (f : Loaded F -> A) (e : entry F) : option A :=
  match e with
  | Full record => Some (f record)
  | Hollow _ => None
  end.

(** A comparator that reads a property of the [frontmatter] of both. *)
Definition compare_entries {F} (comparefn : Loaded F -> Loaded F -> number)
    (a b : entry F) : option number :=
  match a, b with
  | Full x, Full y => Some (comparefn x y)
  | _, _ => None
  end.

(** [array.sort(comparefn)] on such records. *)
Definition sorted_by {F} (comparefn : Loaded F -> Loaded F -> number)
    (l : list (entry F)) : outcome (list (entry F)) :=
  match Array_sort_throwing (compare_entries comparefn) l with
  | Some sorted => Returned sorted
  | None => TypeError
  end.

Section Category.

Context {F : Type}.
Variable empty : F.
Variable parseMatter : string -> option (F * string).
Variable dir : Fs.path.
Variable label : string.

(** [matter(fileContents)], on the cache of the process. *)
Definition matter (input : string) : P (GrayMatter.file F) :=
  fun p =>
    match GrayMatter.matter empty parseMatter input (matter_cache p) with
    | (r, c') => (r, mkProcess (world_of p) c')
    end.

(** [getVentureBySlug], [getPostBySlug] and [getExperienceBySlug], which
    differ in the directory [dir] and in the message [label]. *)
Definition bySlug (slug : string) : P (option (entry F)) :=
  try_catchP
    (let fullPath := path_join dir (slug ++ ".mdx") in
     fileContents <- lift (readFileSync fullPath) ;;
     file <- matter fileContents ;;
     retP (Some
             match file with
             | GrayMatter.Parsed data content =>
                 Full (mkLoaded slug data content)
             | GrayMatter.Inherited => Hollow slug
             end))
    (fun _ => lift (console_error (label ++ slug ++ ":")) ;;; retP None).

(** The head of a [getAll] function,
    [slugs.map(bySlug).filter(x => x !== null)], and [rest], the calls that
    follow on the array. *)
Definition load (listSlugs : M (list string))
    (rest : list (entry F) -> outcome (list (entry F)))
  : process -> outcome (list (entry F)) * process :=
  fun p =>
    match (slugs <- lift listSlugs ;; mapP bySlug slugs) p with
    | (Ok loaded, p') => (rest (filter_not_null loaded), p')
    | (Throw e, p') => (Thrown e, p')
    end.

End Category.

Definition empty_venture : Ventures.VentureFrontmatter :=
  Ventures.mkFrontmatter None None None None None None None None None None
    None None None.

Definition empty_post : Blog.BlogFrontmatter :=
  Blog.mkFrontmatter None None None None None None None None None.

Definition empty_experience : Experiences.ExperienceFrontmatter :=
  Experiences.mkFrontmatter None None None None None None None None None None.

Section Loaders.

Variable parseVenture : string -> option (Ventures.VentureFrontmatter * string).
Variable parsePost : string -> option (Blog.BlogFrontmatter * string).
Variable parseExperience
  : string -> option (Experiences.ExperienceFrontmatter * string).
Variable Date_getTime : string -> number.

Definition getVentureBySlug
  : string -> P (option (entry Ventures.VentureFrontmatter)) :=
  bySlug empty_venture parseVenture Ventures.venturesDirectory
    "Error reading venture ".

Definition getAllVentures
  : process -> outcome (list (entry Ventures.VentureFrontmatter)) * process :=
  load empty_venture parseVenture Ventures.venturesDirectory
    "Error reading venture " Ventures.getAllVentureSlugs
    (sorted_by Ventures.compareVentures).

Definition getPostBySlug : string -> P (option (entry Blog.BlogFrontmatter)) :=
  bySlug empty_post parsePost Blog.POSTS_PATH "Error reading post ".

(** [includeUnpublished || post.frontmatter.published !== false]. *)
Definition keep_post (includeUnpublished : bool)
    (post : entry Blog.BlogFrontmatter) : option bool :=
  if includeUnpublished then Some true
  else on_frontmatter Blog.published_not_false post.

Definition getAllPosts (includeUnpublished : bool)
  : process -> outcome (list (entry Blog.BlogFrontmatter)) * process :=
  load empty_post parsePost Blog.POSTS_PATH "Error reading post "
    Blog.getAllPostSlugs
    (fun posts =>
       match filter_throwing (keep_post includeUnpublished) posts with
       | Some kept => sorted_by (Blog.comparePosts Date_getTime) kept
       | None => TypeError
       end).

Definition getExperienceBySlug
  : string -> P (option (entry Experiences.ExperienceFrontmatter)) :=
  bySlug empty_experience parseExperience Experiences.experiencesDirectory
    "Error reading experience ".

Definition getAllExperiences
  : process
    -> outcome (list (entry Experiences.ExperienceFrontmatter)) * process :=
  load empty_experience parseExperience Experiences.experiencesDirectory
    "Error reading experience " Experiences.getAllExperienceSlugs
    (sorted_by Experiences.compareExperiences).

End Loaders.

End Process.

(** * Part 2: what the properties are stated with *)

(** ** Words of a body *)

Module Words.

(** The number of maximal runs of non-whitespace characters of [s];
    [after_space] says that a word starts at the next such character. *)
Fixpoint count (s : string) (after_space : bool) : nat :=
  match s with
  | EmptyString => 0
  | String c s' =>
      if Str.isWhiteSpace c then count s' true
      else (if after_space then 1 else 0) + count s' false
  end.

Definition words (s : string) : nat := count s true.

Definition starts_with_space (s : string) : bool :=
  match s with
  | String c _ => Str.isWhiteSpace c
  | EmptyString => false
  end.

Fixpoint ends_with_space (s : string) : bool :=
  match s with
  | EmptyString => false
  | String c EmptyString => Str.isWhiteSpace c
  | String _ s' => ends_with_space s'
  end.

Definition is_empty (s : string) : bool :=
  match s with EmptyString => true | String _ _ => false end.

Definition bit (b : bool) : nat := if b then 1 else 0.

Definition words450 : string := String.concat " " (repeat "word" 450).

End Words.

(** ** Anchors *)

Module Anchor.

Definition starts_alnum (s : string) : bool :=
  match s with
  | String c _ => Str.isLowerAlnum c
  | EmptyString => false
  end.

Definition cons_to_head (c : ascii) (rs : list string) : list string :=
  match rs with
  | r :: rs' => String c r :: rs'
  | [] => [String c EmptyString]
  end.

(** The maximal runs of alphanumeric characters of [s], left to right. *)
Fixpoint alnum_runs (s : string) : list string :=
  match s with
  | EmptyString => []
  | String c s' =>
      if Str.isLowerAlnum c then
        if starts_alnum s' then cons_to_head c (alnum_runs s')
        else String c EmptyString :: alnum_runs s'
      else alnum_runs s'
  end.

(** The anchor as the specification words it: the lower-cased title with
    every maximal run of other characters collapsed to one separator, and no
    separator at either end; that is, its alphanumeric runs joined by "-". *)
Definition anchor_spec (title : string) : string :=
  String.concat "-" (alnum_runs (Str.toLowerCase title)).

Definition first_is_dash (s : string) : bool :=
  match s with
  | String c _ => Ascii.eqb c Str.dash
  | EmptyString => false
  end.

Fixpoint last_is_dash (s : string) : bool :=
  match s with
  | EmptyString => false
  | String c EmptyString => Ascii.eqb c Str.dash
  | String _ s' => last_is_dash s'
  end.

Fixpoint all_alnum (s : string) : bool :=
  match s with
  | EmptyString => true
  | String c s' => Str.isLowerAlnum c && all_alnum s'
  end.

Definition is_run (r : string) : Prop := r <> EmptyString /\ all_alnum r = true.

(** [title.replace(/[^a-z0-9]+/g, "-")], from inside a run or not. *)
Definition collapse (s : string) (in_run : bool) : string :=
  Str.replace_runs Str.notLowerAlnum "-" s in_run.

End Anchor.

(** ** Order in a list *)

Module Order.


Definition key_le {A} (key : A -> Z) (a b : A) : Prop := (key a <= key b)%Z.

Definition same_key {A} (key : A -> Z) (k : Z) (a : A) : bool := (key a =? k)%Z.

End Order.

(** ** The shape the three loaders share *)

Module Loader.

Section Shape.

Context {F : Type}.
Variable dir : Fs.path.
Variable label : string.
Variable matter : string -> option (F * string).

Definition slugs_of (fileNames : list string) : list string :=
  map Str.strip_mdx
    (filter (fun fileName => Str.endsWith fileName ".mdx") fileNames).

(** [getAllVentureSlugs] and [getAllExperienceSlugs], for the directory
    [dir]. *)
Definition listSlugs : M (list string) :=
  found <- existsSync dir ;;
  if negb found then ret []
  else
    fileNames <- readdirSync dir ;;
    ret (slugs_of fileNames).

(** [getVentureBySlug], [getPostBySlug] and [getExperienceBySlug], for the
    directory [dir] and the message [label]. *)
Definition bySlug (slug : string) : M (option (Loaded F)) :=
  try_catch
    (let fullPath := path_join dir (slug ++ ".mdx") in
     fileContents <- readFileSync fullPath ;;
     match matter fileContents with
     | Some (data, content) => ret (Some (mkLoaded slug data content))
     | None => throw YAMLException
     end)
    (fun _ => console_error (label ++ slug ++ ":") ;;; ret None).

(** What [bySlug] returns, read off the tree. *)
Definition read_slug (root : Fs.node) (slug : string) : option (Loaded F) :=
  match Fs.lookup (path_join dir (slug ++ ".mdx")) root with
  | Some (Fs.File data) =>
      match matter data with
      | Some (d, c) => Some (mkLoaded slug d c)
      | None => None
      end
  | _ => None
  end.

(** What [listSlugs] returns, read off the tree. *)
Definition list_dir (root : Fs.node) : result (list string) :=
  match Fs.lookup dir root with
  | None => Ok []
  | Some (Fs.File _) => Throw ENOTDIR
  | Some (Fs.Dir es) => Ok (slugs_of (map fst es))
  end.

Definition read_all (root : Fs.node) (slugs : list string) : list (Loaded F) :=
  filter_not_null (map (read_slug root) slugs).

(** [p] is the record of a file of the directory: the directory lists a
    name ending in ".mdx" whose slug is that of [p], and the file of that
    name reads and parses to the header and body of [p]. *)
Definition on_disk (root : Fs.node) (p : Loaded F) : Prop :=
  exists es name data,
    Fs.lookup dir root = Some (Fs.Dir es) /\
    In name (map fst es) /\
    Str.endsWith name ".mdx" = true /\
    slug p = Str.strip_mdx name /\
    Fs.lookup (path_join dir name) root = Some (Fs.File data) /\
    matter data = Some (frontmatter p, content p).

(** The file [name] of the directory fails to load: it cannot be read as a
    regular file, or gray-matter rejects its text. *)
Definition fails (root : Fs.node) (name : string) : Prop :=
  match Fs.lookup (path_join dir name) root with
  | Some (Fs.File data) => matter data = None
  | _ => True
  end.

(** [xs] holds the records of the files of the directory that load, and
    nothing for a file that fails. *)
Definition loads (root : Fs.node) (xs : list (Loaded F)) : Prop :=
  (forall p, In p xs <-> on_disk root p) /\
  (forall name,
      Str.endsWith name ".mdx" = true ->
      fails root name ->
      forall p, In p xs -> slug p <> Str.strip_mdx name).

End Shape.

End Loader.

(** ** The results of the loaders as functions of the tree *)

Module Run.

(** The result of [getAllVentures]. *)
Definition allVentures
    (matter : string -> option (Ventures.VentureFrontmatter * string))
    (root : Fs.node) : result (list Ventures.Venture) :=
  match Loader.list_dir Ventures.venturesDirectory root with
  | Ok slugs =>
      Ok (Array_sort Ventures.compareVentures
            (Loader.read_all Ventures.venturesDirectory matter root slugs))
  | Throw e => Throw e
  end.

(** The result of [getAllExperiences]. *)
Definition allExperiences
    (matter : string -> option (Experiences.ExperienceFrontmatter * string))
    (root : Fs.node) : result (list Experiences.Experience) :=
  match Loader.list_dir Experiences.experiencesDirectory root with
  | Ok slugs =>
      Ok (Array_sort Experiences.compareExperiences
            (Loader.read_all Experiences.experiencesDirectory matter root
               slugs))
  | Throw e => Throw e
  end.

(** The tree after [getAllPostSlugs]: the blog directory is created when it
    is absent and can be created; nothing changes otherwise. *)
Definition fs_after (root : Fs.node) : Fs.node :=
  match Fs.lookup Blog.POSTS_PATH root with
  | Some _ => root
  | None =>
      match Fs.mkdirp Blog.POSTS_PATH root with
      | Some root' => root'
      | None => root
      end
  end.

(** The result of [getAllPostSlugs]. *)
Definition allPostSlugs (root : Fs.node) : result (list string) :=
  match Fs.lookup Blog.POSTS_PATH root with
  | None =>
      match Fs.mkdirp Blog.POSTS_PATH root with
      | Some _ => Ok []
      | None => Throw ENOTDIR
      end
  | Some (Fs.File _) => Throw ENOTDIR
  | Some (Fs.Dir es) => Ok (Loader.slugs_of (map fst es))
  end.

Definition keep (includeUnpublished : bool) (post : Blog.BlogPost) : bool :=
  includeUnpublished || Blog.published_not_false post.

(** The result of [getAllPosts]. *)
Definition allPosts
    (matter : string -> option (Blog.BlogFrontmatter * string))
    (Date_getTime : string -> number)
    (includeUnpublished : bool) (root : Fs.node)
  : result (list Blog.BlogPost) :=
  match allPostSlugs root with
  | Ok slugs =>
      Ok (Array_sort (Blog.comparePosts Date_getTime)
            (filter (keep includeUnpublished)
               (Loader.read_all Blog.POSTS_PATH matter root slugs)))
  | Throw e => Throw e
  end.

Definition has_order (e : Experiences.Experience) : bool :=
  match Experiences.order (frontmatter e) with
  | Some _ => true
  | None => false
  end.

End Run.

(** ** Example content *)

Module Examples.

Definition nl : string := String (ascii_of_nat 10) EmptyString.

(** gray-matter on the files of an example, as a table from the text of a
    file to the header and body it parses to; any other text is taken as
    one gray-matter rejects. *)
Fixpoint parse_table {F} (table : list (string * (F * string))) (text : string)
  : option (F * string) :=
  match table with
  | [] => None
  | (t, r) :: table' =>
      if String.eqb t text then Some r else parse_table table' text
  end.

Definition tree (category : string) (files : list (string * Fs.node))
  : Fs.node :=
  Fs.Dir [("content", Fs.Dir [(category, Fs.Dir files)])].

(** *** Ventures *)

Definition venture_text (order : option string) : string :=
  "---" ++ nl ++ "title: Venture" ++ nl ++ "description: A venture" ++ nl
  ++ "icon: scale" ++ nl ++ "status: live" ++ nl ++ "technologies: []" ++ nl
  ++ match order with
     | Some n => "order: " ++ n ++ nl
     | None => EmptyString
     end
  ++ "---" ++ nl ++ "Body".

Definition venture_header (order : option Z) : Ventures.VentureFrontmatter :=
  Ventures.mkFrontmatter (Some "Venture") (Some "A venture") (Some "scale")
    (Some Ventures.live) None None None (Some []) None order None None None.

Definition venture_matter
  : string -> option (Ventures.VentureFrontmatter * string) :=
  parse_table
    [ (venture_text (Some "1"), (venture_header (Some 1%Z), "Body"));
      (venture_text (Some "2"), (venture_header (Some 2%Z), "Body"));
      (venture_text (Some "3"), (venture_header (Some 3%Z), "Body"));
      (venture_text (Some "1000"), (venture_header (Some 1000%Z), "Body"));
      (venture_text None, (venture_header None, "Body")) ].

Definition venture (slug : string) (order : option Z) : Ventures.Venture :=
  mkLoaded slug (venture_header order) "Body".



(** *** Blog posts *)

Definition post_text (date : string) (published : option string) : string :=
  "---" ++ nl ++ "title: Post" ++ nl ++ "description: A post" ++ nl
  ++ "date: '" ++ date ++ "'" ++ nl ++ "author: Me" ++ nl
  ++ "category: Notes" ++ nl ++ "tags: []" ++ nl
  ++ match published with
     | Some b => "published: " ++ b ++ nl
     | None => EmptyString
     end
  ++ "---" ++ nl ++ "Body".

Definition post_header (date : string) (published : option bool)
  : Blog.BlogFrontmatter :=
  Blog.mkFrontmatter (Some "Post") (Some "A post") (Some date) (Some "Me")
    (Some "Notes") (Some []) None None published.

(** A header with no field at all: what a file without front matter
    parses to. *)
Definition no_header : Blog.BlogFrontmatter :=
  Blog.mkFrontmatter None None None None None None None None None.

Definition post_matter : string -> option (Blog.BlogFrontmatter * string) :=
  parse_table
    [ (post_text "2024-01-01" None, (post_header "2024-01-01" None, "Body"));
      (post_text "2024-03-01" (Some "false"),
        (post_header "2024-03-01" (Some false), "Body"));
      (post_text "2024-06-01" (Some "true"),
        (post_header "2024-06-01" (Some true), "Body"));
      ("Just some text.", (no_header, "Just some text.")) ].

(** [new Date(s).getTime()] on the dates of the example. *)
Definition post_getTime (s : string) : number :=
  if String.eqb s "2024-01-01" then Num 1704067200000
  else if String.eqb s "2024-03-01" then Num 1709251200000
  else if String.eqb s "2024-06-01" then Num 1717200000000
  else NaN.

Definition post (slug date : string) (published : option bool)
  : Blog.BlogPost :=
  mkLoaded slug (post_header date published) "Body".

Definition posts_mixed : world :=
  World (tree "blog"
           [ ("old.mdx", Fs.File (post_text "2024-01-01" None));
             ("draft.mdx", Fs.File (post_text "2024-03-01" (Some "false")));
             ("new.mdx", Fs.File (post_text "2024-06-01" (Some "true")));
             ("notes.txt", Fs.File "not a post") ]) [].

(** A file without front matter, a file gray-matter rejects, and a
    directory that carries the extension. *)
Definition posts_damaged : world :=
  World (tree "blog"
           [ ("bare.mdx", Fs.File "Just some text.");
             ("broken.mdx", Fs.File ("---" ++ nl ++ "title: [" ++ nl ++ "---"));
             ("folder.mdx", Fs.Dir []);
             ("old.mdx", Fs.File (post_text "2024-01-01" None)) ]) [].

(** *** Experiences *)

Definition experience_matter
  : string -> option (Experiences.ExperienceFrontmatter * string) :=
  parse_table [].

Definition experience (slug : string) (current : bool) (order : option Z)
  : Experiences.Experience :=
  mkLoaded slug
    (Experiences.mkFrontmatter (Some "Engineer") (Some "Company") None
       (Some "2020") (Some (if current then "Present" else "2022"))
       (Some current) (Some "Work") (Some []) (Some []) order)
    "Body".

(** *** Worlds without the content directories *)

Definition empty_project : world := World (Fs.Dir []) [].

(** [content] is a regular file. *)
Definition content_is_file : world :=
  World (Fs.Dir [("content", Fs.File "to do")]) [].

End Examples.

(** ** What the further properties are stated with *)

Module More.

Section Shape.

Context {F : Type}.
Variable dir : Fs.path.
Variable label : string.
Variable matter : string -> option (F * string).


End Shape.


(** The file names of a directory that the loaders take. *)
Definition mdx_names (es : list (string * Fs.node)) : list string :=
  filter (fun name => Str.endsWith name ".mdx") (map fst es).




(** 0 for a current role and 1 for a past one. *)
Definition past (e : Experiences.Experience) : Z :=
  if Experiences.is_current e then 0 else 1.


(** [p] is a post that [getAllPosts()] lists. *)
Definition listed (matter : string -> option (Blog.BlogFrontmatter * string))
    (root : Fs.node) (p : Blog.BlogPost) : Prop :=
  Loader.on_disk Blog.POSTS_PATH matter root p /\
  Blog.published (frontmatter p) <> Some false.



(** Every character of [s] is one of [a-z0-9] or "-". *)
Fixpoint anchor_chars (s : string) : bool :=
  match s with
  | EmptyString => true
  | String c s' =>
      (Str.isLowerAlnum c || Ascii.eqb c Str.dash) && anchor_chars s'
  end.

(** [s] has two "-" in a row. *)
Fixpoint double_dash (s : string) : bool :=
  match s with
  | String c ((String d _) as s') =>
      (Ascii.eqb c Str.dash && Ascii.eqb d Str.dash) || double_dash s'
  | _ => false
  end.

End More.

(** ** The first sight of a text *)

Module FirstSight.

Section Shape.

Context {F : Type}.
Variable empty : F.
Variable parseMatter : string -> option (F * string).
Variable dir : Fs.path.

(** What [matter] does with a text that it sees for the first time: the
    empty text has the header [{}], any other text is parsed. *)
Definition matter (input : string) : option (F * string) :=
  if String.eqb input "" then Some (empty, "") else parseMatter input.

(** What [matter] does with a text that it has stored: it returns the
    stored file, which has the header [{}] and the whole text as its body
    when the YAML engine rejected the text. *)
Definition again (input : string) : option (F * string) :=
  if String.eqb input "" then Some (empty, "")
  else
    Some match parseMatter input with
         | Some file => file
         | None => (empty, input)
         end.

(** gray-matter parses [input]: it is empty, or it names no member of
    [Object.prototype] and the YAML engine accepts it. *)
Definition parses (input : string) : bool :=
  String.eqb input "" ||
  negb (GrayMatter.inherited input) &&
  match parseMatter input with Some _ => true | None => false end.

(** With the cache [c], [input] is treated as at first sight: gray-matter
    parses it, or it names no member of [Object.prototype] and is not in
    the cache. *)
Definition fresh (c : GrayMatter.cache) (input : string) : bool :=
  parses input ||
  negb (GrayMatter.inherited input) && negb (GrayMatter.cached c input).

(** Every text of [inputs] is fresh when its turn comes, in a process that
    starts with the cache [c] and gives the texts to [matter] in order. *)
Fixpoint holds (c : GrayMatter.cache) (inputs : list string) : bool :=
  match inputs with
  | [] => true
  | input :: rest =>
      fresh c input &&
      holds (snd (GrayMatter.matter empty parseMatter input c)) rest
  end.

(** The texts of the files of [slugs] that can be read, in that order. *)
Definition texts (root : Fs.node) (slugs : list string) : list string :=
  flat_map
    (fun slug =>
       match Fs.lookup (path_join dir (slug ++ ".mdx")) root with
       | Some (Fs.File data) => [data]
       | _ => []
       end)
    slugs.

End Shape.

End FirstSight.

(** ** More example content *)

Module MoreExamples.
Import Examples.

Definition experience_text (current : bool) (order : option string) : string :=
  "---" ++ nl ++ "title: Engineer" ++ nl ++ "company: Company" ++ nl
  ++ "startDate: '2020'" ++ nl
  ++ "endDate: " ++ (if current then "Present" else "'2022'") ++ nl
  ++ "current: " ++ (if current then "true" else "false") ++ nl
  ++ "description: Work" ++ nl ++ "achievements: []" ++ nl
  ++ "technologies: []" ++ nl
  ++ match order with
     | Some n => "order: " ++ n ++ nl
     | None => EmptyString
     end
  ++ "---" ++ nl ++ "Body".

Definition experience_matter
  : string -> option (Experiences.ExperienceFrontmatter * string) :=
  parse_table
    [ (experience_text true None, (frontmatter (experience "" true None), "Body"));
      (experience_text false None,
        (frontmatter (experience "" false None), "Body"));
      (experience_text true (Some "2"),
        (frontmatter (experience "" true (Some 2%Z)), "Body"));
      (experience_text false (Some "1"),
        (frontmatter (experience "" false (Some 1%Z)), "Body")) ].


(** Two roles with an order between two roles without: a past role, a
    past role of order 1, a current role of order 2, a current role. *)
Definition experiences_mixed : world :=
  World (tree "experiences"
           [ ("a-past.mdx", Fs.File (experience_text false None));
             ("b-first.mdx", Fs.File (experience_text false (Some "1")));
             ("c-second.mdx", Fs.File (experience_text true (Some "2")));
             ("d-now.mdx", Fs.File (experience_text true None)) ]) [].






Definition tagged_text (date category tags : string) : string :=
  "---" ++ nl ++ "title: Post" ++ nl ++ "date: '" ++ date ++ "'" ++ nl
  ++ "category: " ++ category ++ nl ++ "tags: " ++ tags ++ nl
  ++ "---" ++ nl ++ "Body".

Definition tagged_header (date category : string) (tags : list string)
  : Blog.BlogFrontmatter :=
  Blog.mkFrontmatter (Some "Post") None (Some date) None (Some category)
    (Some tags) None None None.

(** A header without category and tags. *)
Definition untagged_text : string :=
  "---" ++ nl ++ "title: Post" ++ nl ++ "date: '2024-06-01'" ++ nl
  ++ "---" ++ nl ++ "Body".

Definition untagged_header : Blog.BlogFrontmatter :=
  Blog.mkFrontmatter (Some "Post") None (Some "2024-06-01") None None None
    None None None.

Definition tagged_matter : string -> option (Blog.BlogFrontmatter * string) :=
  parse_table
    [ (tagged_text "2024-01-01" "AI" "[Rust, ML]",
        (tagged_header "2024-01-01" "AI" ["Rust"; "ML"], "Body"));
      (tagged_text "2024-03-01" "Web" "[rust]",
        (tagged_header "2024-03-01" "Web" ["rust"], "Body"));
      (untagged_text, (untagged_header, "Body")) ].


Definition posts_untagged : world :=
  World (tree "blog"
           [ ("ai.mdx", Fs.File (tagged_text "2024-01-01" "AI" "[Rust, ML]"));
             ("bare.mdx", Fs.File untagged_text) ]) [].

(** The text of [broken.mdx] in [posts_damaged]: a header that the YAML
    engine rejects. *)
Definition broken_text : string := "---" ++ nl ++ "title: [" ++ nl ++ "---".

(** A process that has parsed nothing yet. *)
Definition started (w : world) : Process.process := Process.mkProcess w [].

(** [toUpperCase] on the ASCII letters, for the example keys. *)
Definition upper_char (c : ascii) : ascii :=
  if Str.between 97 122 c then ascii_of_N (Str.code c - 32) else c.

Fixpoint toUpperCase (s : string) : string :=
  match s with
  | EmptyString => EmptyString
  | String c s' => String (upper_char c) (toUpperCase s')
  end.

(** [String(n)] on the integers of the examples, which are small. *)
Definition Number_toString (z : Z) : string :=
  NilZero.string_of_int (Z.to_int z).




End MoreExamples.

(** * Part 3: properties *)

(** ** Reading time *)

Module ReadingTime.
Import Words.

Lemma Math_ceil_div_spec (n d : N) :
  (0 < d)%N ->
  (n <= Math_ceil_div n d * d /\
   forall m, n <= m * d -> Math_ceil_div n d <= m)%N.
Proof.
  intros Hd. unfold Math_ceil_div.
  pose proof (N.div_mod n d ltac:(lia)) as E.
  pose proof (N.mod_lt n d ltac:(lia)) as L.
  destruct (N.eqb_spec (n mod d) 0) as [Z0|NZ].
  - split; [nia|]. intros m Hm.
    assert (n / d < m + 1)%N; [|lia].
    apply N.Div0.div_lt_upper_bound; nia.
  - split; [nia|]. intros m Hm.
    assert (n / d < m)%N; [|lia].
    apply N.Div0.div_lt_upper_bound.
    destruct (N.eq_dec n (m * d)) as [->|Hne]; [|nia].
    rewrite N.Div0.mod_mul in NZ. congruence.
Qed.

Lemma ends_with_space_cons c s :
  ends_with_space (String c s) =
  if is_empty s then Str.isWhiteSpace c else ends_with_space s.
Proof. destruct s; reflexivity. Qed.

(** The pieces of the split, counted from either state of the scan. *)
Lemma split_go_length s : forall piece,
  List.length (Str.split_go Str.isWhiteSpace s piece false)
    = (count s false + 1 + bit (ends_with_space s))%nat /\
  List.length (Str.split_go Str.isWhiteSpace s piece true)
    = (count s true + bit (is_empty s || ends_with_space s))%nat.
Proof.
  induction s as [|c s IH]; intros piece; [split; reflexivity|].
  cbn [Str.split_go count]. rewrite ends_with_space_cons.
  destruct (Str.isWhiteSpace c) eqn:E.
  - destruct (IH piece) as [_ Ht]. destruct (IH EmptyString) as [_ Ht0].
    cbn [List.length]. rewrite Ht, Ht0.
    destruct s; cbn [is_empty orb bit]; split; lia.
  - destruct (IH (Str.snoc piece c)) as [Hf _]. rewrite Hf.
    destruct s; cbn [is_empty orb bit ends_with_space]; split; lia.
Qed.

Lemma count_true s :
  count s true =
  (count s false + bit (negb (is_empty s || starts_with_space s)))%nat.
Proof.
  destruct s as [|c s]; [reflexivity|]. cbn.
  destruct (Str.isWhiteSpace c); cbn; lia.
Qed.

(** What [wordCount] counts: the words, and one more for an empty body or a
    body that starts with white space, and one more for a body that ends
    with white space. *)
Lemma wordCount_words content :
  Blog.wordCount content =
  N.of_nat (words content
            + bit (is_empty content || starts_with_space content)
            + bit (ends_with_space content)).
Proof.
  unfold Blog.wordCount, Str.split, words. f_equal.
  destruct (split_go_length content EmptyString) as [-> _].
  rewrite count_true.
  destruct (is_empty content || starts_with_space content); cbn; lia.
Qed.

Lemma wordCount_positive content : (1 <= Blog.wordCount content)%N.
Proof.
  rewrite wordCount_words. destruct content as [|c s]; [cbn; lia|].
  cbn [is_empty orb starts_with_space words count].
  destruct (Str.isWhiteSpace c); cbn [bit]; lia.
Qed.

(** On a body that is not empty and has no white space at either end, the
    count is the number of words and the minutes are its ceiling over 200. *)
Lemma calculateReadingTime_trimmed content :
  is_empty content = false ->
  starts_with_space content = false ->
  ends_with_space content = false ->
  Blog.calculateReadingTime content =
  (Str.of_N (Math_ceil_div (N.of_nat (words content)) 200)
   ++ " min read")%string.
Proof.
  intros He Hs Ht. unfold Blog.calculateReadingTime.
  rewrite wordCount_words, He, Hs, Ht. cbn [orb bit].
  rewrite !Nat.add_0_r. reflexivity.
Qed.

Lemma calculateReadingTime_450 :
  words words450 = 450%nat /\
  Blog.calculateReadingTime words450 = "3 min read".
Proof. split; vm_compute; reflexivity. Qed.

End ReadingTime.

(** C3.  [calculateReadingTime] on the empty body: there is no word, the
    split gives one empty piece, the count is 1 and the answer is
    "1 min read", where a body of no words should take 0 minutes. *)
Theorem C3_empty_body_one_minute :
  Words.words "" = 0%nat /\
  Blog.wordCount "" = 1%N /\
  Blog.calculateReadingTime "" = "1 min read" /\
  Blog.calculateReadingTime "" <> "0 min read".
Proof. repeat split; try reflexivity. vm_compute. discriminate. Qed.

(** ** Heading anchors *)

Module AnchorFacts.
Import Anchor.

Lemma collapse_cons c s b :
  collapse (String c s) b =
  if Str.isLowerAlnum c then String c (collapse s false)
  else if b then collapse s true else String Str.dash (collapse s true).
Proof.
  unfold collapse, Str.notLowerAlnum. simpl.
  destruct (Str.isLowerAlnum c), b; reflexivity.
Qed.

Lemma strip_trailing_single c :
  Str.strip_trailing_dash (String c EmptyString) =
  if Ascii.eqb c Str.dash then EmptyString else String c EmptyString.
Proof. reflexivity. Qed.

Lemma alnum_not_dash c :
  Str.isLowerAlnum c = true -> Ascii.eqb c Str.dash = false.
Proof.
  intros H. destruct (Ascii.eqb_spec c Str.dash) as [->|]; [|reflexivity].
  vm_compute in H. discriminate.
Qed.

Lemma collapse_false s :
  collapse s false =
  match s with
  | String c _ =>
      if Str.isLowerAlnum c then collapse s true
      else String Str.dash (collapse s true)
  | EmptyString => EmptyString
  end.
Proof.
  destruct s as [|c s]; [reflexivity|]. rewrite !collapse_cons.
  destruct (Str.isLowerAlnum c); reflexivity.
Qed.

Lemma collapse_true_head s :
  match collapse s true with
  | String c _ => Str.isLowerAlnum c = true
  | EmptyString => True
  end.
Proof.
  induction s as [|c s IH]; [exact I|]. rewrite collapse_cons.
  destruct (Str.isLowerAlnum c) eqn:E; [exact E|exact IH].
Qed.

Lemma strip_leading_collapse s :
  Str.strip_leading_dash (collapse s false) = collapse s true.
Proof.
  rewrite collapse_false. destruct s as [|c s]; [reflexivity|].
  destruct (Str.isLowerAlnum c) eqn:E.
  - pose proof (collapse_true_head (String c s)) as H.
    destruct (collapse (String c s) true) as [|d t]; [reflexivity|].
    unfold Str.strip_leading_dash. rewrite (alnum_not_dash d H). reflexivity.
  - reflexivity.
Qed.

Lemma collapse_true_empty s :
  collapse s true = EmptyString <-> alnum_runs s = [].
Proof.
  induction s as [|c s IH]; [unfold collapse; simpl; tauto|].
  rewrite collapse_cons. cbn [alnum_runs].
  destruct (Str.isLowerAlnum c); [|exact IH].
  split; [discriminate|].
  destruct (starts_alnum s); [|discriminate].
  destruct (alnum_runs s); discriminate.
Qed.

Lemma starts_alnum_runs s :
  starts_alnum s = true -> alnum_runs s <> [].
Proof.
  destruct s as [|c s]; simpl; [discriminate|]. intros ->.
  destruct (starts_alnum s); [destruct (alnum_runs s)|]; discriminate.
Qed.

Lemma concat_cons_to_head sep c r rs :
  String.concat sep (String c r :: rs) = String c (String.concat sep (r :: rs)).
Proof. destruct rs; reflexivity. Qed.

Lemma strip_trailing_cons c s :
  s <> EmptyString ->
  Str.strip_trailing_dash (String c s) = String c (Str.strip_trailing_dash s).
Proof. destruct s; [congruence|reflexivity]. Qed.

Lemma strip_trailing_collapse s :
  Str.strip_trailing_dash (collapse s true) = String.concat "-" (alnum_runs s).
Proof.
  induction s as [|c s IH]; [reflexivity|].
  rewrite collapse_cons. cbn [alnum_runs].
  destruct (Str.isLowerAlnum c) eqn:E; [|exact IH].
  rewrite collapse_false. destruct s as [|c' s'].
  - rewrite strip_trailing_single, (alnum_not_dash c E). reflexivity.
  - cbn [starts_alnum]. destruct (Str.isLowerAlnum c') eqn:E'.
    + pose proof (starts_alnum_runs (String c' s') E') as Hne.
      destruct (collapse (String c' s') true) as [|d t] eqn:Ec.
      { apply collapse_true_empty in Ec. contradiction. }
      rewrite strip_trailing_cons by discriminate. rewrite IH.
      destruct (alnum_runs (String c' s')) as [|r rs]; [contradiction|].
      cbn [cons_to_head]. rewrite concat_cons_to_head. reflexivity.
    + destruct (collapse (String c' s') true) as [|d t] eqn:Ec.
      * apply collapse_true_empty in Ec. rewrite Ec.
        rewrite strip_trailing_cons by discriminate.
        rewrite strip_trailing_single. reflexivity.
      * rewrite strip_trailing_cons by discriminate.
        rewrite strip_trailing_cons by discriminate. rewrite IH.
        destruct (alnum_runs (String c' s')) as [|r rs] eqn:Er.
        { apply collapse_true_empty in Er. congruence. }
        reflexivity.
Qed.

Lemma alnum_runs_are_runs s : Forall is_run (alnum_runs s).
Proof.
  induction s as [|c s IH]; simpl; [constructor|].
  destruct (Str.isLowerAlnum c) eqn:E; [|exact IH].
  destruct (starts_alnum s).
  - destruct IH as [|r rs [Hr Ha] Hrs]; simpl.
    + repeat constructor; [discriminate|simpl; rewrite E; reflexivity].
    + constructor; [|exact Hrs].
      split; [discriminate|simpl; rewrite E; exact Ha].
  - constructor; [|exact IH].
    split; [discriminate|simpl; rewrite E; reflexivity].
Qed.

Lemma run_first r : is_run r -> first_is_dash r = false.
Proof.
  intros [Hne Ha]. destruct r as [|c r]; [congruence|]. simpl in *.
  apply andb_prop in Ha. apply alnum_not_dash, Ha.
Qed.

Lemma run_last r : is_run r -> last_is_dash r = false.
Proof.
  intros [Hne Ha]. induction r as [|c r IH]; [congruence|].
  simpl in Ha. apply andb_prop in Ha. destruct Ha as [Hc Hr].
  destruct r as [|c' r']; [apply alnum_not_dash, Hc|].
  change (last_is_dash (String c' r') = false).
  apply IH; [discriminate|exact Hr].
Qed.

Lemma last_is_dash_app a b :
  b <> EmptyString -> last_is_dash (a ++ b) = last_is_dash b.
Proof.
  intros Hb. induction a as [|c a IH]; [reflexivity|].
  simpl. destruct (a ++ b)%string eqn:E; [|exact IH].
  destruct a; simpl in E; congruence.
Qed.

Lemma first_is_dash_app a b :
  a <> EmptyString -> first_is_dash (a ++ b) = first_is_dash a.
Proof. destruct a; [congruence|reflexivity]. Qed.

Lemma concat_runs_first rs :
  Forall is_run rs -> first_is_dash (String.concat "-" rs) = false.
Proof.
  intros H. destruct H as [|r rs Hr Hrs]; [reflexivity|].
  destruct rs as [|r' rs']; simpl; [apply run_first, Hr|].
  rewrite first_is_dash_app by apply Hr. apply run_first, Hr.
Qed.

Lemma concat_runs_last rs :
  Forall is_run rs -> last_is_dash (String.concat "-" rs) = false.
Proof.
  induction 1 as [|r rs Hr Hrs IH]; [reflexivity|].
  destruct rs as [|r' rs']; [apply run_last, Hr|].
  change (String.concat "-" (r :: r' :: rs'))
    with (r ++ "-" ++ String.concat "-" (r' :: rs'))%string.
  rewrite last_is_dash_app by discriminate.
  change ("-" ++ String.concat "-" (r' :: rs'))%string
    with (String Str.dash (String.concat "-" (r' :: rs'))).
  inversion Hrs as [|? ? Hr' _]; subst.
  destruct (String.concat "-" (r' :: rs')) as [|d t] eqn:Ec.
  - exfalso. destruct Hr' as [Hne _]. destruct r'; [congruence|].
    destruct rs'; simpl in Ec; discriminate.
  - exact IH.
Qed.

End AnchorFacts.

Lemma heading_id_anchor_spec title :
  BlogPage.heading_id title = Anchor.anchor_spec title.
Proof.
  unfold BlogPage.heading_id, Str.strip_dashes, Anchor.anchor_spec.
  fold (Anchor.collapse (Str.toLowerCase title) false).
  rewrite AnchorFacts.strip_leading_collapse.
  apply AnchorFacts.strip_trailing_collapse.
Qed.

(** C4.  The anchor of a heading is its lower-cased title with every maximal
    run of non-alphanumeric characters collapsed to one "-", without a
    leading or trailing "-"; "Getting Started: Part 1!" gives
    "getting-started-part-1". *)
Theorem C4_heading_id_collapses_runs :
  (forall title,
      BlogPage.heading_id title =
        String.concat "-" (Anchor.alnum_runs (Str.toLowerCase title)) /\
      Anchor.first_is_dash (BlogPage.heading_id title) = false /\
      Anchor.last_is_dash (BlogPage.heading_id title) = false) /\
  BlogPage.heading_id "Getting Started: Part 1!" = "getting-started-part-1" /\
  BlogPage.id (BlogPage.toc_item "##" "Getting Started: Part 1!  ")
    = "getting-started-part-1".
Proof.
  split; [|split; reflexivity]. intros title.
  rewrite heading_id_anchor_spec. unfold Anchor.anchor_spec.
  pose proof (AnchorFacts.alnum_runs_are_runs (Str.toLowerCase title)) as H.
  repeat split.
  - apply AnchorFacts.concat_runs_first, H.
  - apply AnchorFacts.concat_runs_last, H.
Qed.

(** ** The icon lookup *)

Lemma Icon_recognized :
  map (fun kv => VentureCard.Icon (fst kv)) VentureCard.iconMap =
  map snd VentureCard.iconMap.
Proof. reflexivity. Qed.

Lemma Icon_fallback icon :
  VentureCard.recognized icon = false ->
  existsb (String.eqb icon) VentureCard.Object_prototype = false ->
  VentureCard.Icon icon = VentureCard.Scale.
Proof.
  unfold VentureCard.Icon, VentureCard.iconMap_get, VentureCard.recognized.
  destruct (VentureCard.own_property icon VentureCard.iconMap); [discriminate|].
  intros _ ->. reflexivity.
Qed.

Lemma Icon_inherited icon :
  VentureCard.recognized icon = false ->
  existsb (String.eqb icon) VentureCard.Object_prototype = true ->
  VentureCard.Icon icon = VentureCard.ObjectPrototypeMember icon.
Proof.
  unfold VentureCard.Icon, VentureCard.iconMap_get, VentureCard.recognized.
  destruct (VentureCard.own_property icon VentureCard.iconMap); [discriminate|].
  intros _ ->. reflexivity.
Qed.

(** C10.  The icon string "constructor" is none of the nine keys, yet the
    lookup does not fall back to [Scale]: [iconMap] is an object literal, the
    name is found on [Object.prototype], and the value found there, truthy,
    is what [Icon] becomes. *)
Theorem C10_inherited_key_skips_fallback :
  VentureCard.recognized "constructor" = false /\
  VentureCard.Icon "constructor" =
    VentureCard.ObjectPrototypeMember "constructor" /\
  VentureCard.Icon "constructor" <> VentureCard.Scale.
Proof. repeat split. discriminate. Qed.

(** ** The comparator of the experiences *)

Module ExperienceOrder.
Import Experiences.

Lemma compare_both_ordered a b oa ob :
  order (frontmatter a) = Some oa ->
  order (frontmatter b) = Some ob ->
  compareExperiences a b = Num (oa - ob).
Proof. unfold compareExperiences. intros -> ->. reflexivity. Qed.

Lemma compare_not_both_ordered a b :
  Run.has_order a && Run.has_order b = false ->
  compareExperiences a b =
    if is_current a && negb (is_current b) then Num (-1)
    else if negb (is_current a) && is_current b then Num 1
    else Num 0.
Proof.
  unfold compareExperiences, Run.has_order.
  destruct (order (frontmatter a)), (order (frontmatter b));
    simpl; intros H; try discriminate; reflexivity.
Qed.

End ExperienceOrder.

(** The comparator of [getAllExperiences] on a pair [a], [b], and the sort
    of that pair alone: with an [order] on both the comparator is their
    difference, so the smaller order comes first; otherwise a current entry
    comes before one that is not current; otherwise it is 0 and the pair
    keeps its order. *)
Lemma compareExperiences_pair (a b : Experiences.Experience) :
  (forall oa ob,
      Experiences.order (frontmatter a) = Some oa ->
      Experiences.order (frontmatter b) = Some ob ->
      Experiences.compareExperiences a b = Num (oa - ob) /\
      Array_sort Experiences.compareExperiences [a; b] =
        (if (oa <=? ob)%Z then [a; b] else [b; a])) /\
  (Run.has_order a && Run.has_order b = false ->
   (Experiences.is_current a = true -> Experiences.is_current b = false ->
    Experiences.compareExperiences a b = Num (-1) /\
    Experiences.compareExperiences b a = Num 1 /\
    Array_sort Experiences.compareExperiences [a; b] = [a; b] /\
    Array_sort Experiences.compareExperiences [b; a] = [a; b]) /\
   (Experiences.is_current a = Experiences.is_current b ->
    Experiences.compareExperiences a b = Num 0 /\
    Array_sort Experiences.compareExperiences [a; b] = [a; b])).
Proof.
  split.
  - intros oa ob Ha Hb.
    pose proof (ExperienceOrder.compare_both_ordered a b oa ob Ha Hb) as E.
    split; [exact E|].
    unfold Array_sort. cbn [fold_right sort_insert]. unfold comes_after.
    rewrite E. destruct (Z.leb_spec oa ob), (Z.ltb_spec 0 (oa - ob));
      try reflexivity; lia.
  - intros Hno.
    assert (Hno' : Run.has_order b && Run.has_order a
                   = false) by (rewrite andb_comm; exact Hno).
    pose proof (ExperienceOrder.compare_not_both_ordered a b Hno) as Eab.
    pose proof (ExperienceOrder.compare_not_both_ordered b a Hno') as Eba.
    split.
    + intros Ha Hb. rewrite Ha, Hb in *. simpl in Eab, Eba.
      unfold Array_sort. cbn [fold_right sort_insert]. unfold comes_after.
      rewrite Eab, Eba. repeat split.
    + intros Heq. rewrite Heq in Eab.
      assert (E0 : Experiences.compareExperiences a b = Num 0).
      { rewrite Eab. destruct (Experiences.is_current b); reflexivity. }
      split; [exact E0|].
      unfold Array_sort. cbn [fold_right sort_insert]. unfold comes_after.
      rewrite E0. reflexivity.
Qed.

(** C5.  The rules hold pair by pair, not on the list.  Of four experiences
    listed as a past role without [order], a past role of order 1, a current
    role of order 2 and a current role without [order],
    [getAllExperiences] returns the list as it is: the past role without
    order stays first, before both current roles, although neither pair has
    an [order] on both sides and the comparator, asked about either pair,
    puts the current role first. *)
Theorem C5_mixed_orders_leave_a_past_role_first :
  let past := Examples.experience "a-past" false None in
  let first := Examples.experience "b-first" false (Some 1%Z) in
  let second := Examples.experience "c-second" true (Some 2%Z) in
  let now := Examples.experience "d-now" true None in
  fst (Experiences.getAllExperiences MoreExamples.experience_matter
         MoreExamples.experiences_mixed)
    = Ok [past; first; second; now] /\
  Experiences.compareExperiences now past = Num (-1) /\
  Experiences.compareExperiences second past = Num (-1) /\
  Experiences.compareExperiences past first = Num 0 /\
  Experiences.compareExperiences first second = Num (-1) /\
  Experiences.compareExperiences second now = Num 0.
Proof. vm_compute. repeat split. Qed.

(** ** Running the shared shape *)

Module LoaderFacts.

Section Shape.

Context {F : Type}.
Variable dir : Fs.path.
Variable label : string.
Variable matter : string -> option (F * string).

Lemma listSlugs_run w :
  Loader.listSlugs dir w = (Loader.list_dir dir (fs w), w).
Proof.
  unfold Loader.listSlugs, Loader.list_dir, bind, existsSync, readdirSync, ret.
  destruct (Fs.lookup dir (fs w)) as [[data|es]|] eqn:E; cbn; rewrite ?E;
    reflexivity.
Qed.

Lemma bySlug_run slug w :
  exists w',
    Loader.bySlug dir label matter slug w
      = (Ok (Loader.read_slug dir matter (fs w) slug), w') /\
    fs w' = fs w.
Proof.
  unfold Loader.bySlug, Loader.read_slug, try_catch, bind, readFileSync, ret,
    throw, console_error.
  destruct (Fs.lookup (path_join dir (slug ++ ".mdx")) (fs w)) as [[data|es]|];
    cbn; try (eexists; split; reflexivity).
  destruct (matter data) as [[d c]|]; cbn; eexists; split; reflexivity.
Qed.

Lemma mapM_bySlug_run slugs w :
  exists w',
    mapM (Loader.bySlug dir label matter) slugs w
      = (Ok (map (Loader.read_slug dir matter (fs w)) slugs), w') /\
    fs w' = fs w.
Proof.
  revert w. induction slugs as [|s slugs IH]; intros w; cbn [mapM map].
  - exists w. split; reflexivity.
  - destruct (bySlug_run s w) as (w1 & E1 & F1).
    destruct (IH w1) as (w2 & E2 & F2).
    exists w2. unfold bind at 1. rewrite E1. unfold bind at 1. rewrite E2.
    rewrite F1. split; [reflexivity|congruence].
Qed.

Lemma read_slug_some root s p :
  Loader.read_slug dir matter root s = Some p <->
  s = slug p /\
  exists data,
    Fs.lookup (path_join dir (slug p ++ ".mdx")) root = Some (Fs.File data) /\
    matter data = Some (frontmatter p, content p).
Proof.
  unfold Loader.read_slug. split.
  - destruct (Fs.lookup (path_join dir (s ++ ".mdx")) root)
      as [[data|es]|] eqn:El; try discriminate.
    destruct (matter data) as [[d c]|] eqn:Em; try discriminate.
    intros [= <-]. cbn. split; [reflexivity|]. exists data. split; assumption.
  - intros (-> & data & -> & ->). destruct p; reflexivity.
Qed.

(** A record is loaded exactly when the file of a listed slug reads and
    parses to it. *)
Lemma in_read_all root slugs p :
  In p (Loader.read_all dir matter root slugs) <->
  In (slug p) slugs /\
  exists data,
    Fs.lookup (path_join dir (slug p ++ ".mdx")) root = Some (Fs.File data) /\
    matter data = Some (frontmatter p, content p).
Proof.
  unfold Loader.read_all.
  induction slugs as [|s slugs IH]; cbn [map filter_not_null].
  - split; [intros []|intros [[] _]].
  - pose proof (read_slug_some root s p) as Hhead.
    destruct (Loader.read_slug dir matter root s) as [q|] eqn:Eq.
    + cbn [In]. rewrite IH. split.
      * intros [->|[Hin Hd]].
        -- destruct Hhead as [Hh _]. destruct (Hh eq_refl) as [-> Hd].
           split; [left; reflexivity|exact Hd].
        -- split; [right; exact Hin|exact Hd].
      * intros [[->|Hin] Hd].
        -- left. destruct Hhead as [_ Hh].
           specialize (Hh (conj eq_refl Hd)). congruence.
        -- right. split; assumption.
    + rewrite IH. split.
      * intros [Hin Hd]. cbn [In]. split; [right; exact Hin|exact Hd].
      * intros [[->|Hin] Hd]; [|split; assumption].
        destruct Hhead as [_ Hh]. specialize (Hh (conj eq_refl Hd)).
        discriminate.
Qed.

End Shape.

End LoaderFacts.

(** ** Facts about [Array_sort] *)

Module SortFacts.
Import Order.

Section Any.

Context {A : Type}.
Variable comparefn : A -> A -> number.

Lemma sort_insert_perm a l : Permutation (sort_insert comparefn a l) (a :: l).
Proof.
  induction l as [|b l IH]; cbn [sort_insert]; [reflexivity|].
  destruct (comes_after comparefn a b); [|reflexivity].
  rewrite IH. apply perm_swap.
Qed.

Lemma Array_sort_perm l : Permutation (Array_sort comparefn l) l.
Proof.
  induction l as [|a l IH]; cbn; [constructor|].
  fold (Array_sort comparefn l). rewrite sort_insert_perm. auto.
Qed.

Lemma in_Array_sort x l : In x (Array_sort comparefn l) <-> In x l.
Proof.
  split; apply Permutation_in;
    [apply Array_sort_perm | apply Permutation_sym, Array_sort_perm].
Qed.

End Any.

Section ByKey.

Context {A : Type}.
Variable key : A -> Z.


Lemma filter_same_key_head a l :
  filter (same_key key (key a)) (a :: l) = a :: filter (same_key key (key a)) l.
Proof. cbn. unfold same_key at 1. rewrite Z.eqb_refl. reflexivity. Qed.

Lemma filter_same_key_nil k l :
  filter (same_key key k) l = [] -> forall x, In x l -> key x <> k.
Proof.
  intros H x Hx Hk. assert (Hin : In x (filter (same_key key k) l)).
  { apply filter_In. split; [exact Hx|]. unfold same_key. apply Z.eqb_eq, Hk. }
  rewrite H in Hin. destruct Hin.
Qed.

(** Sorted by key and stable determine the list: two lists sorted by key
    whose elements of each key come in the same order are equal. *)
Lemma sorted_stable_unique l1 : forall l2,
  StronglySorted (key_le key) l1 ->
  StronglySorted (key_le key) l2 ->
  (forall k, filter (same_key key k) l1 = filter (same_key key k) l2) ->
  l1 = l2.
Proof.
  induction l1 as [|a l1 IH]; intros l2 H1 H2 Hf.
  - destruct l2 as [|b l2]; [reflexivity|]. specialize (Hf (key b)).
    rewrite filter_same_key_head in Hf. discriminate.
  - destruct l2 as [|b l2].
    { specialize (Hf (key a)). rewrite filter_same_key_head in Hf.
      discriminate. }
    apply StronglySorted_inv in H1. destruct H1 as [H1 Ha].
    apply StronglySorted_inv in H2. destruct H2 as [H2 Hb].
    rewrite Forall_forall in Ha, Hb.
    assert (Hin : forall x k l l',
               filter (same_key key k) (x :: l) = filter (same_key key k) l' ->
               key x = k -> In x l').
    { intros x k l l' E Hk. subst k. rewrite filter_same_key_head in E.
      assert (Hx : In x (filter (same_key key (key x)) l'))
        by (rewrite <- E; left; reflexivity).
      apply filter_In in Hx. apply Hx. }
    assert (Hab : key a = key b).
    { pose proof (Hin a (key a) l1 (b :: l2) (Hf (key a)) eq_refl) as Ia.
      pose proof (Hin b (key b) l2 (a :: l1) (eq_sym (Hf (key b))) eq_refl)
        as Ib.
      assert (key b <= key a)%Z
        by (destruct Ia as [<-|Ia]; [lia|apply (Hb a Ia)]).
      assert (key a <= key b)%Z
        by (destruct Ib as [<-|Ib]; [lia|apply (Ha b Ib)]).
      lia. }
    pose proof (Hf (key a)) as Hk. rewrite filter_same_key_head in Hk.
    rewrite Hab in Hk at 2. rewrite filter_same_key_head in Hk.
    injection Hk as <- Hk. f_equal. apply IH; [exact H1|exact H2|].
    intros k. specialize (Hf k). cbn [filter] in Hf.
    destruct (same_key key k a) eqn:Ek; [|exact Hf].
    injection Hf as Hf. exact Hf.
Qed.

Variable comparefn : A -> A -> number.
Hypothesis comparefn_key : forall a b, comparefn a b = Num (key a - key b).

Lemma comes_after_key a b : comes_after comparefn a b = (key b <? key a)%Z.
Proof using comparefn_key.
  unfold comes_after. rewrite comparefn_key.
  destruct (Z.ltb_spec 0 (key a - key b)), (Z.ltb_spec (key b) (key a));
    try reflexivity; lia.
Qed.

Lemma sort_insert_sorted a l :
  StronglySorted (key_le key) l ->
  StronglySorted (key_le key) (sort_insert comparefn a l).
Proof using comparefn_key.
  induction 1 as [|b l Hs IH Hb]; cbn [sort_insert].
  - repeat constructor.
  - rewrite comes_after_key. destruct (Z.ltb_spec (key b) (key a)) as [Hlt|Hge].
    + constructor; [exact IH|].
      eapply Permutation_Forall; [apply Permutation_sym, sort_insert_perm|].
      constructor; [unfold key_le; lia|exact Hb].
    + constructor; [constructor; assumption|].
      constructor; [exact Hge|].
      eapply Forall_impl; [|exact Hb]. unfold key_le. intros; lia.
Qed.

Lemma Array_sort_sorted l :
  StronglySorted (key_le key) (Array_sort comparefn l).
Proof using comparefn_key.
  induction l as [|a l IH]; cbn; [constructor|].
  apply sort_insert_sorted, IH.
Qed.

(** The sort is stable: the elements of one key keep their order. *)
Lemma sort_insert_stable k a l :
  filter (same_key key k) (sort_insert comparefn a l) =
  filter (same_key key k) (a :: l).
Proof using comparefn_key.
  induction l as [|b l IH]; cbn [sort_insert]; [reflexivity|].
  rewrite comes_after_key. destruct (Z.ltb_spec (key b) (key a)) as [Hlt|Hge];
    [|reflexivity].
  cbn [filter] in *. rewrite IH. unfold same_key.
  destruct (Z.eqb_spec (key a) k), (Z.eqb_spec (key b) k); try reflexivity; lia.
Qed.

Lemma Array_sort_stable k l :
  filter (same_key key k) (Array_sort comparefn l) = filter (same_key key k) l.
Proof using comparefn_key.
  induction l as [|a l IH]; [reflexivity|].
  cbn [Array_sort fold_right]. fold (Array_sort comparefn l).
  rewrite sort_insert_stable. cbn [filter]. rewrite IH. reflexivity.
Qed.

(** For a comparator that is a difference of keys, [Array_sort] is the only
    sort there is: whatever list an engine returns that is sorted by key and
    keeps the elements of equal key in their order is this one. *)
Lemma Array_sort_unique l l' :
  StronglySorted (key_le key) l' ->
  (forall k, filter (same_key key k) l' = filter (same_key key k) l) ->
  l' = Array_sort comparefn l.
Proof using comparefn_key.
  intros Hs Hf. apply sorted_stable_unique; [exact Hs|apply Array_sort_sorted|].
  intros k. rewrite Array_sort_stable. apply Hf.
Qed.

End ByKey.


End SortFacts.

(** ** Facts about the tree *)

Module FsFacts.
Import Fs.

Lemma lookup_entry_update_same name x y es :
  lookup_entry name es = Some y ->
  lookup_entry name (update_entry name x es) = Some x.
Proof.
  induction es as [|[n z] es IH]; cbn; [discriminate|].
  destruct (String.eqb n name) eqn:E; cbn; rewrite E; auto.
Qed.

Lemma lookup_entry_update_other name other x es :
  other <> name ->
  lookup_entry other (update_entry name x es) = lookup_entry other es.
Proof.
  intros Hne. induction es as [|[n z] es IH]; cbn; [reflexivity|].
  destruct (String.eqb n name) eqn:E; cbn.
  - apply String.eqb_eq in E. subst n.
    destruct (String.eqb name other) eqn:E'; [|reflexivity].
    apply String.eqb_eq in E'. congruence.
  - rewrite IH. reflexivity.
Qed.

Lemma lookup_entry_app_new name x es :
  lookup_entry name es = None ->
  lookup_entry name (es ++ [(name, x)]) = Some x.
Proof.
  induction es as [|[n z] es IH]; cbn.
  - rewrite String.eqb_refl. reflexivity.
  - destruct (String.eqb n name); [discriminate|exact IH].
Qed.

Lemma lookup_entry_app_old name x y extra es :
  lookup_entry name es = Some y ->
  lookup_entry name (es ++ [(extra, x)]) = Some y.
Proof.
  induction es as [|[n z] es IH]; cbn; [discriminate|].
  destruct (String.eqb n name); auto.
Qed.

Lemma lookup_fresh_dirs p : lookup p (fresh_dirs p) = Some (Dir []).
Proof.
  induction p as [|name p IH]; cbn; [reflexivity|].
  rewrite String.eqb_refl. exact IH.
Qed.

(** After [mkdir -p] of a path that was absent, the path is an empty
    directory. *)
Lemma lookup_mkdirp_new p : forall root root',
  lookup p root = None -> mkdirp p root = Some root' ->
  lookup p root' = Some (Dir []).
Proof.
  induction p as [|name p IH]; intros root root'; cbn; [discriminate|].
  destruct root as [data|es]; [discriminate|].
  destruct (lookup_entry name es) as [x|] eqn:El.
  - intros Hl. destruct (mkdirp p x) as [x'|] eqn:Em; [|discriminate].
    intros [= <-]. cbn. rewrite (lookup_entry_update_same _ _ _ _ El).
    eapply IH; eassumption.
  - intros _ [= <-]. cbn. rewrite (lookup_entry_app_new _ _ _ El).
    apply lookup_fresh_dirs.
Qed.

(** [mkdir -p] keeps every regular file, with its contents. *)
Lemma mkdirp_keeps_files p : forall root root' q data,
  mkdirp p root = Some root' ->
  lookup q root = Some (File data) ->
  lookup q root' = Some (File data).
Proof.
  induction p as [|name p IH]; intros root root' q data; cbn.
  - destruct root; [discriminate|]. intros [= <-]. auto.
  - destruct root as [d|es]; [discriminate|].
    destruct (lookup_entry name es) as [x|] eqn:El.
    + destruct (mkdirp p x) as [x'|] eqn:Em; [|discriminate].
      intros [= <-]. destruct q as [|n q]; cbn; [discriminate|].
      destruct (String.eqb_spec n name) as [->|Hne].
      * rewrite El, (lookup_entry_update_same _ _ _ _ El).
        eapply IH; eassumption.
      * rewrite (lookup_entry_update_other _ _ _ _ Hne). auto.
    + intros [= <-]. destruct q as [|n q]; cbn; [discriminate|].
      destruct (lookup_entry n es) as [y|] eqn:Eq; [|discriminate].
      rewrite (lookup_entry_app_old _ _ _ _ _ Eq). auto.
Qed.

(** [mkdir -p] removes nothing: a path that led somewhere still does. *)
Lemma mkdirp_keeps_paths p : forall root root' q x,
  mkdirp p root = Some root' ->
  lookup q root = Some x ->
  exists x', lookup q root' = Some x'.
Proof.
  induction p as [|name p IH]; intros root root' q y; cbn.
  - destruct root; [discriminate|]. intros [= <-]. eauto.
  - destruct root as [d|es]; [discriminate|].
    destruct (lookup_entry name es) as [x|] eqn:El.
    + destruct (mkdirp p x) as [x'|] eqn:Em; [|discriminate].
      intros [= <-]. destruct q as [|n q]; cbn; [eauto|].
      destruct (String.eqb_spec n name) as [->|Hne].
      * rewrite El, (lookup_entry_update_same _ _ _ _ El).
        eapply IH; eassumption.
      * rewrite (lookup_entry_update_other _ _ _ _ Hne). eauto.
    + intros [= <-]. destruct q as [|n q]; cbn; [eauto|].
      destruct (lookup_entry n es) as [z|] eqn:Eq; [|discriminate].
      rewrite (lookup_entry_app_old _ _ _ _ _ Eq). eauto.
Qed.

End FsFacts.

(** ** Which files become records *)

Module StrFacts.

Lemma substring_all s : substring 0 (String.length s) s = s.
Proof.
  induction s as [|c s IH]; cbn; [reflexivity|]. rewrite IH. reflexivity.
Qed.

Lemma substring_split s : forall k,
  (k <= String.length s)%nat ->
  (substring 0 k s ++ substring k (String.length s - k) s)%string = s.
Proof.
  induction s as [|c s IH]; intros [|k] Hk; cbn in *; try reflexivity; try lia.
  - rewrite substring_all. reflexivity.
  - rewrite IH by lia. reflexivity.
Qed.

(** A listed name that ends in ".mdx" is its slug followed by ".mdx": the
    path [getXBySlug] reads is the listed file. *)
Lemma strip_mdx_append name :
  Str.endsWith name ".mdx" = true ->
  (Str.strip_mdx name ++ ".mdx")%string = name.
Proof.
  intros H. unfold Str.strip_mdx. rewrite H. unfold Str.endsWith in H.
  apply andb_prop in H. destruct H as [Hlen Hsuf].
  apply Nat.leb_le in Hlen. apply String.eqb_eq in Hsuf.
  cbn [String.length] in *.
  pose proof (substring_split name (String.length name - 4) ltac:(lia)) as E.
  replace (String.length name - (String.length name - 4))%nat with 4%nat in E
    by lia.
  rewrite Hsuf in E. exact E.
Qed.

End StrFacts.

Module OnDisk.

Section Shape.

Context {F : Type}.
Variable dir : Fs.path.
Variable matter : string -> option (F * string).

Lemma in_slugs_of s names :
  In s (Loader.slugs_of names) <->
  exists name,
    In name names /\ Str.endsWith name ".mdx" = true /\ s = Str.strip_mdx name.
Proof.
  unfold Loader.slugs_of. rewrite in_map_iff. split.
  - intros (name & <- & Hin). apply filter_In in Hin. destruct Hin.
    exists name. repeat split; assumption.
  - intros (name & Hin & He & ->). exists name. split; [reflexivity|].
    apply filter_In. split; assumption.
Qed.

Lemma read_all_on_disk root es p :
  Fs.lookup dir root = Some (Fs.Dir es) ->
  In p (Loader.read_all dir matter root (Loader.slugs_of (map fst es))) <->
  Loader.on_disk dir matter root p.
Proof.
  intros Hdir. rewrite LoaderFacts.in_read_all, in_slugs_of.
  unfold Loader.on_disk. split.
  - intros ((name & Hin & He & Hs) & data & Hl & Hm).
    exists es, name, data. rewrite Hs, (StrFacts.strip_mdx_append _ He) in Hl.
    repeat split; assumption.
  - intros (es' & name & data & Hdir' & Hin & He & Hs & Hl & Hm).
    assert (es' = es) by congruence. subst es'.
    split; [exists name; repeat split; assumption|]. exists data.
    rewrite Hs, (StrFacts.strip_mdx_append _ He). split; assumption.
Qed.

Lemma on_disk_not_failed root p name :
  Loader.on_disk dir matter root p ->
  Str.endsWith name ".mdx" = true ->
  slug p = Str.strip_mdx name ->
  ~ Loader.fails dir matter root name.
Proof.
  intros (es & name' & data & _ & _ & He' & Hs' & Hl & Hm) He Hs Hf.
  assert (name' = name) as ->.
  { rewrite <- (StrFacts.strip_mdx_append _ He'),
      <- (StrFacts.strip_mdx_append _ He). congruence. }
  unfold Loader.fails in Hf. rewrite Hl in Hf. congruence.
Qed.

Lemma loads_read_all root es :
  Fs.lookup dir root = Some (Fs.Dir es) ->
  forall comparefn,
    Loader.loads dir matter root
      (Array_sort comparefn
         (Loader.read_all dir matter root (Loader.slugs_of (map fst es)))).
Proof.
  intros Hd comparefn.
  assert (Hin : forall p,
             In p (Array_sort comparefn
                     (Loader.read_all dir matter root
                        (Loader.slugs_of (map fst es)))) <->
             Loader.on_disk dir matter root p).
  { intros p. rewrite SortFacts.in_Array_sort.
    apply read_all_on_disk, Hd. }
  split; [exact Hin|].
  intros name He Hf p Hp Hs. apply Hin in Hp.
  exact (on_disk_not_failed root p name Hp He Hs Hf).
Qed.

End Shape.

End OnDisk.

(** ** The three loaders, run *)

Module VenturesFacts.
Import Ventures.

Lemma getAllVentureSlugs_run w :
  getAllVentureSlugs w = (Loader.list_dir venturesDirectory (fs w), w).
Proof. apply LoaderFacts.listSlugs_run. Qed.

Lemma getVentureBySlug_run matter slug w :
  exists w',
    getVentureBySlug matter slug w =
      (Ok (Loader.read_slug venturesDirectory matter (fs w) slug), w') /\
    fs w' = fs w.
Proof.
  apply (LoaderFacts.bySlug_run venturesDirectory "Error reading venture ").
Qed.

Lemma getAllVentures_run matter w :
  exists w',
    getAllVentures matter w = (Run.allVentures matter (fs w), w') /\
    fs w' = fs w.
Proof.
  unfold getAllVentures, Run.allVentures, bind at 1.
  rewrite getAllVentureSlugs_run.
  destruct (Loader.list_dir venturesDirectory (fs w)) as [slugs|e];
    [|exists w; split; reflexivity].
  destruct (LoaderFacts.mapM_bySlug_run venturesDirectory
              "Error reading venture " matter slugs w) as (w' & E & Hfs).
  exists w'. split; [|exact Hfs].
  unfold bind. change (mapM (getVentureBySlug matter) slugs w) with
    (mapM (Loader.bySlug venturesDirectory "Error reading venture " matter)
       slugs w).
  rewrite E. reflexivity.
Qed.

End VenturesFacts.

Module ExperiencesFacts.
Import Experiences.

Lemma getAllExperienceSlugs_run w :
  getAllExperienceSlugs w = (Loader.list_dir experiencesDirectory (fs w), w).
Proof. apply LoaderFacts.listSlugs_run. Qed.

Lemma getAllExperiences_run matter w :
  exists w',
    getAllExperiences matter w = (Run.allExperiences matter (fs w), w') /\
    fs w' = fs w.
Proof.
  unfold getAllExperiences, Run.allExperiences, bind at 1.
  rewrite getAllExperienceSlugs_run.
  destruct (Loader.list_dir experiencesDirectory (fs w)) as [slugs|e];
    [|exists w; split; reflexivity].
  destruct (LoaderFacts.mapM_bySlug_run experiencesDirectory
              "Error reading experience " matter slugs w) as (w' & E & Hfs).
  exists w'. split; [|exact Hfs].
  unfold bind. change (mapM (getExperienceBySlug matter) slugs w) with
    (mapM (Loader.bySlug experiencesDirectory "Error reading experience "
             matter) slugs w).
  rewrite E. reflexivity.
Qed.

End ExperiencesFacts.

Module BlogFacts.
Import Blog.

Section Run.

Variable matter : string -> option (BlogFrontmatter * string).
Variable Date_getTime : string -> number.

Lemma getAllPostSlugs_run w :
  exists w',
    getAllPostSlugs w = (Run.allPostSlugs (fs w), w') /\
    fs w' = Run.fs_after (fs w).
Proof.
  unfold getAllPostSlugs, Run.allPostSlugs, Run.fs_after, bind, existsSync,
    readdirSync, mkdirSync_recursive, ret.
  cbv beta.
  destruct (Fs.lookup POSTS_PATH (fs w)) as [[data|es]|] eqn:E;
    cbv beta iota; cbn [negb]; cbv beta iota; rewrite ?E;
    try (eexists; split; reflexivity).
  destruct (Fs.mkdirp POSTS_PATH (fs w)); eexists; split; reflexivity.
Qed.

(** Reading happens on the tree [getAllPostSlugs] leaves; a slug is only
    ever read from a tree where the directory was there from the start. *)
Lemma allPostSlugs_created root :
  Fs.lookup POSTS_PATH root = None ->
  Run.allPostSlugs root = Ok [] \/ Run.allPostSlugs root = Throw ENOTDIR.
Proof.
  unfold Run.allPostSlugs. intros ->.
  destruct (Fs.mkdirp POSTS_PATH root); auto.
Qed.

Lemma read_all_after root slugs :
  Run.allPostSlugs root = Ok slugs ->
  Loader.read_all POSTS_PATH matter (Run.fs_after root) slugs =
  Loader.read_all POSTS_PATH matter root slugs.
Proof.
  unfold Run.fs_after.
  destruct (Fs.lookup POSTS_PATH root) eqn:E; [reflexivity|].
  intros H. destruct (allPostSlugs_created root E) as [H'|H']; rewrite H' in H.
  - injection H as <-. reflexivity.
  - discriminate.
Qed.

Lemma getAllPosts_run includeUnpublished w :
  exists w',
    getAllPosts matter Date_getTime includeUnpublished w =
      (Run.allPosts matter Date_getTime includeUnpublished (fs w), w') /\
    fs w' = Run.fs_after (fs w).
Proof.
  unfold getAllPosts, Run.allPosts, bind at 1.
  destruct (getAllPostSlugs_run w) as (w1 & E1 & F1). rewrite E1.
  destruct (Run.allPostSlugs (fs w)) as [slugs|e] eqn:Es;
    [|exists w1; split; [reflexivity|exact F1]].
  destruct (LoaderFacts.mapM_bySlug_run POSTS_PATH "Error reading post "
              matter slugs w1) as (w2 & E2 & F2).
  exists w2. split; [|congruence].
  unfold bind. change (mapM (getPostBySlug matter) slugs w1) with
    (mapM (Loader.bySlug POSTS_PATH "Error reading post " matter) slugs w1).
  rewrite E2. rewrite <- (read_all_after _ _ Es), <- F1. reflexivity.
Qed.

(** A second run sees the tree [Run.fs_after root] and returns the same. *)
Lemma allPostSlugs_after root :
  Run.allPostSlugs (Run.fs_after root) = Run.allPostSlugs root.
Proof.
  unfold Run.fs_after, Run.allPostSlugs.
  destruct (Fs.lookup POSTS_PATH root) as [x|] eqn:E; [rewrite E; reflexivity|].
  destruct (Fs.mkdirp POSTS_PATH root) as [root'|] eqn:Em.
  - rewrite (FsFacts.lookup_mkdirp_new _ _ _ E Em). reflexivity.
  - rewrite E, Em. reflexivity.
Qed.

Lemma allPosts_after includeUnpublished root :
  Run.allPosts matter Date_getTime includeUnpublished (Run.fs_after root) =
  Run.allPosts matter Date_getTime includeUnpublished root.
Proof.
  unfold Run.allPosts. rewrite allPostSlugs_after.
  destruct (Run.allPostSlugs root) as [slugs|e] eqn:Es; [|reflexivity].
  rewrite (read_all_after _ _ Es). reflexivity.
Qed.

End Run.

End BlogFacts.

(** ** The order of the ventures *)







(** ** The published filter *)

Lemma getAllPosts_listed matter dt includeUnpublished w es :
  Fs.lookup Blog.POSTS_PATH (fs w) = Some (Fs.Dir es) ->
  exists w',
    Blog.getAllPosts matter dt includeUnpublished w =
      (Ok (Array_sort (Blog.comparePosts dt)
             (filter (Run.keep includeUnpublished)
                (Loader.read_all Blog.POSTS_PATH matter (fs w)
                   (Loader.slugs_of (map fst es))))), w') /\
    fs w' = fs w.
Proof.
  intros Hd.
  destruct (BlogFacts.getAllPosts_run matter dt includeUnpublished w)
    as (w' & E & Hfs).
  unfold Run.allPosts, Run.allPostSlugs in E. rewrite Hd in E.
  cbv beta iota in E. exists w'. split; [exact E|].
  rewrite Hfs. unfold Run.fs_after. rewrite Hd. reflexivity.
Qed.

Lemma in_getAllPosts matter dt includeUnpublished root es p :
  Fs.lookup Blog.POSTS_PATH root = Some (Fs.Dir es) ->
  In p (Array_sort (Blog.comparePosts dt)
          (filter (Run.keep includeUnpublished)
             (Loader.read_all Blog.POSTS_PATH matter root
                (Loader.slugs_of (map fst es))))) <->
  Loader.on_disk Blog.POSTS_PATH matter root p /\
  (includeUnpublished = true \/
   Blog.published (frontmatter p) <> Some false).
Proof.
  intros Hd. rewrite SortFacts.in_Array_sort, filter_In.
  rewrite (OnDisk.read_all_on_disk Blog.POSTS_PATH matter root es p Hd).
  unfold Run.keep, Blog.published_not_false.
  destruct includeUnpublished; cbn [orb].
  - split; intros [Hk _]; split; auto.
  - destruct (Blog.published (frontmatter p)) as [[|]|]; split; intros [Hk Hp];
      split; auto; try discriminate; try (right; discriminate).
    destruct Hp as [Hp|Hp]; [discriminate|congruence].
Qed.



(** ** What the loaders write *)

Lemma fs_after_same root x :
  Fs.lookup Blog.POSTS_PATH root = Some x -> Run.fs_after root = root.
Proof. unfold Run.fs_after. intros ->. reflexivity. Qed.

Lemma fs_after_keeps_files root q data :
  Fs.lookup q root = Some (Fs.File data) ->
  Fs.lookup q (Run.fs_after root) = Some (Fs.File data).
Proof.
  unfold Run.fs_after.
  destruct (Fs.lookup Blog.POSTS_PATH root); [auto|].
  destruct (Fs.mkdirp Blog.POSTS_PATH root) eqn:Em; [|auto].
  eapply FsFacts.mkdirp_keeps_files, Em.
Qed.

Lemma fs_after_keeps_paths root q x :
  Fs.lookup q root = Some x ->
  exists x', Fs.lookup q (Run.fs_after root) = Some x'.
Proof.
  unfold Run.fs_after.
  destruct (Fs.lookup Blog.POSTS_PATH root); [eauto|].
  destruct (Fs.mkdirp Blog.POSTS_PATH root) eqn:Em; [|eauto].
  eapply FsFacts.mkdirp_keeps_paths, Em.
Qed.

Lemma fs_after_creates root root' :
  Fs.lookup Blog.POSTS_PATH root = None ->
  Fs.mkdirp Blog.POSTS_PATH root = Some root' ->
  Run.fs_after root = root' /\
  Fs.lookup Blog.POSTS_PATH root' = Some (Fs.Dir []).
Proof.
  intros Hl Hm. unfold Run.fs_after. rewrite Hl, Hm.
  split; [reflexivity|]. eapply FsFacts.lookup_mkdirp_new; eassumption.
Qed.

(** The claim says no loader ever writes.  In a project without
    [content/blog], [getAllPostSlugs] leaves a tree that has it. *)
Lemma C6_getAllPostSlugs_creates_directory :
  ~ (forall w, fs (snd (Blog.getAllPostSlugs w)) = fs w).
Proof.
  intros H. specialize (H Examples.empty_project). vm_compute in H.
  discriminate.
Qed.

(** C6, as the code has it.  The loaders of ventures and experiences leave
    the tree as it was.  [getAllPostSlugs], and [getAllPosts] through it,
    leave it as it was when [content/blog] exists; when it does not, they
    create it, empty, and change nothing else: every file keeps its content
    and every path that existed still exists. *)
Theorem C6_loaders_write_only_the_blog_directory mv mb dt me b w :
  (fs (snd (Ventures.getAllVentureSlugs w)) = fs w /\
   fs (snd (Ventures.getAllVentures mv w)) = fs w /\
   fs (snd (Experiences.getAllExperienceSlugs w)) = fs w /\
   fs (snd (Experiences.getAllExperiences me w)) = fs w) /\
  (fs (snd (Blog.getAllPostSlugs w)) = Run.fs_after (fs w) /\
   fs (snd (Blog.getAllPosts mb dt b w)) = Run.fs_after (fs w)) /\
  (forall x,
      Fs.lookup Blog.POSTS_PATH (fs w) = Some x ->
      Run.fs_after (fs w) = fs w) /\
  (forall root',
      Fs.lookup Blog.POSTS_PATH (fs w) = None ->
      Fs.mkdirp Blog.POSTS_PATH (fs w) = Some root' ->
      Run.fs_after (fs w) = root' /\
      Fs.lookup Blog.POSTS_PATH root' = Some (Fs.Dir [])) /\
  (forall q data,
      Fs.lookup q (fs w) = Some (Fs.File data) ->
      Fs.lookup q (Run.fs_after (fs w)) = Some (Fs.File data)) /\
  (forall q x,
      Fs.lookup q (fs w) = Some x ->
      exists x', Fs.lookup q (Run.fs_after (fs w)) = Some x').
Proof.
  split; [repeat split|split; [split|]].
  - rewrite VenturesFacts.getAllVentureSlugs_run. reflexivity.
  - destruct (VenturesFacts.getAllVentures_run mv w) as (w' & -> & E). exact E.
  - rewrite ExperiencesFacts.getAllExperienceSlugs_run. reflexivity.
  - destruct (ExperiencesFacts.getAllExperiences_run me w) as (w' & -> & E).
    exact E.
  - destruct (BlogFacts.getAllPostSlugs_run w) as (w' & -> & E). exact E.
  - destruct (BlogFacts.getAllPosts_run mb dt b w) as (w' & -> & E). exact E.
  - split; [exact (fs_after_same (fs w))|].
    split; [exact (fs_after_creates (fs w))|].
    split; [exact (fs_after_keeps_files (fs w))|].
    exact (fs_after_keeps_paths (fs w)).
Qed.

Lemma C6_loaders_write_only_the_blog_directory_witness :
  fs (snd (Blog.getAllPosts Examples.post_matter Examples.post_getTime false
             Examples.posts_mixed)) = fs Examples.posts_mixed /\
  fs (snd (Blog.getAllPostSlugs Examples.empty_project))
    = Examples.tree "blog" [].
Proof.
  pose proof (C6_loaders_write_only_the_blog_directory
                Examples.venture_matter Examples.post_matter
                Examples.post_getTime Examples.experience_matter false
                Examples.posts_mixed) as (_ & (_ & Hposts) & Hsame & _).
  pose proof (C6_loaders_write_only_the_blog_directory
                Examples.venture_matter Examples.post_matter
                Examples.post_getTime Examples.experience_matter false
                Examples.empty_project) as (_ & (Hslugs & _) & _ & Hnew & _).
  split.
  - rewrite Hposts. eapply Hsame. vm_compute. reflexivity.
  - rewrite Hslugs.
    apply (Hnew (Examples.tree "blog" [])); vm_compute; reflexivity.
Defined.

(** ** A missing directory *)

Lemma getAllVentures_missing mv w :
  Fs.lookup Ventures.venturesDirectory (fs w) = None ->
  Ventures.getAllVentureSlugs w = (Ok [], w) /\
  Ventures.getAllVentures mv w = (Ok [], w).
Proof.
  intros H.
  assert (E : Ventures.getAllVentureSlugs w = (Ok [], w)).
  { rewrite VenturesFacts.getAllVentureSlugs_run. unfold Loader.list_dir.
    rewrite H. reflexivity. }
  split; [exact E|]. unfold Ventures.getAllVentures, bind. rewrite E.
  reflexivity.
Qed.

Lemma getAllExperiences_missing me w :
  Fs.lookup Experiences.experiencesDirectory (fs w) = None ->
  Experiences.getAllExperienceSlugs w = (Ok [], w) /\
  Experiences.getAllExperiences me w = (Ok [], w).
Proof.
  intros H.
  assert (E : Experiences.getAllExperienceSlugs w = (Ok [], w)).
  { rewrite ExperiencesFacts.getAllExperienceSlugs_run. unfold Loader.list_dir.
    rewrite H. reflexivity. }
  split; [exact E|]. unfold Experiences.getAllExperiences, bind. rewrite E.
  reflexivity.
Qed.

Lemma getAllPosts_missing mb dt b w :
  Fs.lookup Blog.POSTS_PATH (fs w) = None ->
  match Fs.mkdirp Blog.POSTS_PATH (fs w) with
  | Some root' =>
      Blog.getAllPostSlugs w = (Ok [], World root' (console w)) /\
      Blog.getAllPosts mb dt b w = (Ok [], World root' (console w))
  | None =>
      Blog.getAllPostSlugs w = (Throw ENOTDIR, w) /\
      Blog.getAllPosts mb dt b w = (Throw ENOTDIR, w)
  end.
Proof.
  intros H.
  assert (E : Blog.getAllPostSlugs w =
              match Fs.mkdirp Blog.POSTS_PATH (fs w) with
              | Some root' => (Ok [], World root' (console w))
              | None => (Throw ENOTDIR, w)
              end).
  { unfold Blog.getAllPostSlugs, bind, existsSync, mkdirSync_recursive, ret.
    rewrite H. cbv beta iota. cbn [negb].
    destruct (Fs.mkdirp Blog.POSTS_PATH (fs w)); reflexivity. }
  destruct (Fs.mkdirp Blog.POSTS_PATH (fs w)); (split; [exact E|]);
    unfold Blog.getAllPosts, bind; rewrite E; reflexivity.
Qed.

(** The claim has every loader return the empty collection, without an
    error, when its directory is missing.  Where [content] is a regular
    file, [content/blog] is missing, cannot be created, and
    [getAllPostSlugs] throws. *)
Lemma C7_getAllPostSlugs_throws_when_mkdir_fails :
  ~ (forall w,
        Fs.lookup Blog.POSTS_PATH (fs w) = None ->
        fst (Blog.getAllPostSlugs w) = Ok []).
Proof.
  intros H. specialize (H Examples.content_is_file eq_refl).
  vm_compute in H. discriminate.
Qed.

(** C7, as the code has it.  When the directory of ventures or of
    experiences is missing, the loader returns the empty collection and the
    world is untouched.  When the directory of posts is missing the loader
    first creates it: it returns the empty collection when the creation
    succeeds, and otherwise the error of the creation escapes. *)
Theorem C7_missing_directory_gives_empty_collection mv mb dt me b w :
  (Fs.lookup Ventures.venturesDirectory (fs w) = None ->
   Ventures.getAllVentureSlugs w = (Ok [], w) /\
   Ventures.getAllVentures mv w = (Ok [], w)) /\
  (Fs.lookup Experiences.experiencesDirectory (fs w) = None ->
   Experiences.getAllExperienceSlugs w = (Ok [], w) /\
   Experiences.getAllExperiences me w = (Ok [], w)) /\
  (Fs.lookup Blog.POSTS_PATH (fs w) = None ->
   forall root',
     Fs.mkdirp Blog.POSTS_PATH (fs w) = Some root' ->
     fst (Blog.getAllPostSlugs w) = Ok [] /\
     fst (Blog.getAllPosts mb dt b w) = Ok []) /\
  (Fs.lookup Blog.POSTS_PATH (fs w) = None ->
   Fs.mkdirp Blog.POSTS_PATH (fs w) = None ->
   fst (Blog.getAllPostSlugs w) = Throw ENOTDIR /\
   fst (Blog.getAllPosts mb dt b w) = Throw ENOTDIR).
Proof.
  split; [apply getAllVentures_missing|].
  split; [apply getAllExperiences_missing|].
  split.
  - intros H root' Hm. pose proof (getAllPosts_missing mb dt b w H) as E.
    rewrite Hm in E. destruct E as [-> ->]. split; reflexivity.
  - intros H Hm. pose proof (getAllPosts_missing mb dt b w H) as E.
    rewrite Hm in E. destruct E as [-> ->]. split; reflexivity.
Qed.

Lemma C7_missing_directory_gives_empty_collection_witness :
  Ventures.getAllVentures Examples.venture_matter Examples.empty_project
    = (Ok [], Examples.empty_project) /\
  Experiences.getAllExperiences Examples.experience_matter
    Examples.empty_project = (Ok [], Examples.empty_project) /\
  fst (Blog.getAllPosts Examples.post_matter Examples.post_getTime false
         Examples.empty_project) = Ok [] /\
  fst (Blog.getAllPosts Examples.post_matter Examples.post_getTime false
         Examples.content_is_file) = Throw ENOTDIR.
Proof.
  pose proof (C7_missing_directory_gives_empty_collection
                Examples.venture_matter Examples.post_matter
                Examples.post_getTime Examples.experience_matter false
                Examples.empty_project) as (Hv & He & Hp & _).
  pose proof (C7_missing_directory_gives_empty_collection
                Examples.venture_matter Examples.post_matter
                Examples.post_getTime Examples.experience_matter false
                Examples.content_is_file) as (_ & _ & _ & Hq).
  split; [apply Hv; reflexivity|].
  split; [apply He; reflexivity|].
  split.
  - apply (Hp eq_refl (Examples.tree "blog" [])). reflexivity.
  - apply Hq; reflexivity.
Defined.

(** ** The loaders in a process *)

Module ProcessFacts.
Import Process.

Lemma filter_not_null_full {F} (l : list (option (Loaded F))) :
  filter_not_null (map (option_map Full) l) = map Full (filter_not_null l).
Proof.
  induction l as [|[r|] l IH]; cbn [map option_map filter_not_null].
  - reflexivity.
  - rewrite IH. reflexivity.
  - exact IH.
Qed.

Lemma keep_post_full b (l : list Blog.BlogPost) :
  filter_throwing (keep_post b) (map Full l)
    = Some (map Full (filter (Run.keep b) l)).
Proof.
  induction l as [|r l IH]; cbn [map filter_throwing filter]; [reflexivity|].
  rewrite IH. unfold keep_post, Run.keep, on_frontmatter.
  destruct b; cbn [orb]; [reflexivity|].
  destruct (Blog.published_not_false r); reflexivity.
Qed.

Lemma sort_insert_full {F} (comparefn : Loaded F -> Loaded F -> number) a s :
  sort_insert_throwing (compare_entries comparefn) (Full a) (map Full s)
    = Some (map Full (sort_insert comparefn a s)).
Proof.
  induction s as [|b s IH];
    cbn [map sort_insert_throwing sort_insert compare_entries];
    [reflexivity|].
  change (positive (comparefn a b)) with (comes_after comparefn a b).
  destruct (comes_after comparefn a b); [|reflexivity].
  rewrite IH. reflexivity.
Qed.

Lemma Array_sort_full {F} (comparefn : Loaded F -> Loaded F -> number) l :
  Array_sort_throwing (compare_entries comparefn) (map Full l)
    = Some (map Full (Array_sort comparefn l)).
Proof.
  unfold Array_sort_throwing, Array_sort.
  induction l as [|a l IH]; cbn [map fold_right]; [reflexivity|].
  rewrite IH. apply sort_insert_full.
Qed.

Lemma sorted_by_full {F} (comparefn : Loaded F -> Loaded F -> number) l :
  sorted_by comparefn (map Full l)
    = Returned (map Full (Array_sort comparefn l)).
Proof. unfold sorted_by. rewrite Array_sort_full. reflexivity. Qed.

Section Category.

Context {F : Type}.
Variable empty : F.
Variable parseMatter : string -> option (F * string).
Variable dir : Fs.path.
Variable label : string.

(** On a fresh text [matter] does what it does at first sight. *)
Lemma matter_fresh input c :
  FirstSight.fresh parseMatter c input = true ->
  fst (GrayMatter.matter empty parseMatter input c) =
    match FirstSight.matter empty parseMatter input with
    | Some (data, content) => Ok (GrayMatter.Parsed data content)
    | None => Throw YAMLException
    end.
Proof.
  unfold FirstSight.fresh, FirstSight.parses, FirstSight.matter,
    GrayMatter.matter, GrayMatter.stored.
  destruct (String.eqb input EmptyString); [reflexivity|].
  destruct (GrayMatter.cached c input), (GrayMatter.inherited input),
    (parseMatter input) as [[data content]|];
    cbn; intros H; try reflexivity; discriminate.
Qed.

Lemma parses_fresh input c :
  FirstSight.parses parseMatter input = true ->
  FirstSight.fresh parseMatter c input = true.
Proof. unfold FirstSight.fresh. intros ->. reflexivity. Qed.

Lemma parses_holds inputs :
  forallb (FirstSight.parses parseMatter) inputs = true ->
  forall c, FirstSight.holds empty parseMatter c inputs = true.
Proof.
  induction inputs as [|input rest IH]; intros H c; [reflexivity|].
  cbn [forallb] in H. apply andb_true_iff in H. destruct H as [H1 H2].
  cbn [FirstSight.holds]. rewrite (parses_fresh input c H1), (IH H2).
  reflexivity.
Qed.

Lemma bySlug_fresh slug p :
  (forall data,
      Fs.lookup (path_join dir (slug ++ ".mdx")) (fs (world_of p))
        = Some (Fs.File data) ->
      FirstSight.fresh parseMatter (matter_cache p) data = true) ->
  exists w',
    bySlug empty parseMatter dir label slug p =
      (Ok (option_map Full
             (Loader.read_slug dir (FirstSight.matter empty parseMatter)
                (fs (world_of p)) slug)),
       mkProcess w'
         match Fs.lookup (path_join dir (slug ++ ".mdx")) (fs (world_of p))
         with
         | Some (Fs.File data) =>
             snd (GrayMatter.matter empty parseMatter data (matter_cache p))
         | _ => matter_cache p
         end) /\
    fs w' = fs (world_of p).
Proof.
  intros Hfresh.
  unfold bySlug, try_catchP, bindP, lift, readFileSync, matter, retP,
    console_error, Loader.read_slug.
  destruct (Fs.lookup (path_join dir (slug ++ ".mdx")) (fs (world_of p)))
    as [[data|es]|] eqn:El; cbn [world_of matter_cache];
    try (eexists; split; reflexivity).
  pose proof (matter_fresh data (matter_cache p) (Hfresh data eq_refl)) as Hm.
  destruct (GrayMatter.matter empty parseMatter data (matter_cache p))
    as [r c'] eqn:Em.
  cbn [fst snd] in *. subst r.
  destruct (FirstSight.matter empty parseMatter data) as [[d b]|];
    cbn [world_of matter_cache option_map]; eexists; split; reflexivity.
Qed.

Lemma mapP_first_sight slugs :
  forall p,
    FirstSight.holds empty parseMatter (matter_cache p)
      (FirstSight.texts dir (fs (world_of p)) slugs) = true ->
    exists p',
      mapP (bySlug empty parseMatter dir label) slugs p =
        (Ok (map
               (fun slug =>
                  option_map Full
                    (Loader.read_slug dir (FirstSight.matter empty parseMatter)
                       (fs (world_of p)) slug))
               slugs), p') /\
      fs (world_of p') = fs (world_of p).
Proof.
  induction slugs as [|s slugs IH]; intros p H; cbn [mapP map].
  - exists p. split; reflexivity.
  - unfold FirstSight.texts in H. cbn [flat_map] in H.
    fold (FirstSight.texts dir (fs (world_of p)) slugs) in H.
    destruct (bySlug_fresh s p) as (w1 & E1 & F1).
    { intros data El. rewrite El in H. cbn [app FirstSight.holds] in H.
      apply andb_true_iff in H. apply H. }
    set (c1 := match
                 Fs.lookup (path_join dir (s ++ ".mdx")) (fs (world_of p))
               with
               | Some (Fs.File data) =>
                   snd (GrayMatter.matter empty parseMatter data
                          (matter_cache p))
               | _ => matter_cache p
               end) in E1.
    destruct (IH (mkProcess w1 c1)) as (p2 & E2 & F2).
    { cbn [world_of matter_cache]. rewrite F1. unfold c1.
      destruct (Fs.lookup (path_join dir (s ++ ".mdx")) (fs (world_of p)))
        as [[data|es]|]; cbn [app FirstSight.holds] in H; try exact H.
      apply andb_true_iff in H. apply H. }
    cbn [world_of] in E2, F2. rewrite F1 in E2, F2.
    exists p2. unfold bindP at 1. rewrite E1. unfold bindP at 1. rewrite E2.
    split; [reflexivity|exact F2].
Qed.

Lemma load_first_sight listSlugs rest slugs p :
  listSlugs (world_of p) = (Ok slugs, world_of p) ->
  FirstSight.holds empty parseMatter (matter_cache p)
    (FirstSight.texts dir (fs (world_of p)) slugs) = true ->
  exists p',
    load empty parseMatter dir label listSlugs rest p =
      (rest
         (map Full
            (Loader.read_all dir (FirstSight.matter empty parseMatter)
               (fs (world_of p)) slugs)), p') /\
    fs (world_of p') = fs (world_of p).
Proof.
  intros Hl H. destruct (mapP_first_sight slugs p H) as (p' & E & Hfs).
  exists p'. split; [|exact Hfs].
  unfold load, bindP, lift. rewrite Hl.
  replace (mkProcess (world_of p) (matter_cache p)) with p
    by (destruct p; reflexivity).
  rewrite E. unfold Loader.read_all.
  rewrite <- filter_not_null_full, map_map. reflexivity.
Qed.

(** *** A text that is stored *)

Lemma cached_cons c input t :
  GrayMatter.cached (input :: c) t
    = String.eqb t input || GrayMatter.cached c t.
Proof. reflexivity. Qed.

(** [matter] forgets nothing, and stores its input unless it is empty or
    names an inherited member. *)
Lemma matter_stores input c :
  (forall t,
      GrayMatter.cached c t = true ->
      GrayMatter.cached (snd (GrayMatter.matter empty parseMatter input c)) t
        = true) /\
  (String.eqb input "" = false ->
   GrayMatter.inherited input = false ->
   GrayMatter.cached (snd (GrayMatter.matter empty parseMatter input c)) input
     = true).
Proof.
  unfold GrayMatter.matter.
  destruct (String.eqb input EmptyString); [split; [auto|discriminate]|].
  destruct (GrayMatter.cached c input) eqn:Ec; [split; auto|].
  destruct (GrayMatter.inherited input);
    [split; [auto|intros _ H; discriminate]|].
  destruct (parseMatter input) as [[data content]|]; cbn [snd]; split;
    try (intros t Ht; rewrite cached_cons, Ht; apply orb_true_r);
    intros _ _; rewrite cached_cons, String.eqb_refl; reflexivity.
Qed.

(** On a text that is empty or stored, [matter] returns the stored file
    and leaves the cache as it is. *)
Lemma matter_again input c :
  String.eqb input "" || GrayMatter.cached c input = true ->
  GrayMatter.matter empty parseMatter input c =
    (match FirstSight.again empty parseMatter input with
     | Some (data, content) => Ok (GrayMatter.Parsed data content)
     | None => Throw YAMLException
     end, c).
Proof.
  unfold FirstSight.again, GrayMatter.matter, GrayMatter.stored.
  destruct (String.eqb input EmptyString); [reflexivity|].
  cbn [orb]. intros ->.
  destruct (parseMatter input) as [[data content]|]; reflexivity.
Qed.

Lemma bySlug_returns slug p :
  exists r w',
    bySlug empty parseMatter dir label slug p =
      (Ok r,
       mkProcess w'
         match Fs.lookup (path_join dir (slug ++ ".mdx")) (fs (world_of p))
         with
         | Some (Fs.File data) =>
             snd (GrayMatter.matter empty parseMatter data (matter_cache p))
         | _ => matter_cache p
         end) /\
    fs w' = fs (world_of p).
Proof.
  unfold bySlug, try_catchP, bindP, lift, readFileSync, matter, retP,
    console_error.
  destruct (Fs.lookup (path_join dir (slug ++ ".mdx")) (fs (world_of p)))
    as [[data|es]|] eqn:El; cbn [world_of matter_cache];
    try (eexists; eexists; split; reflexivity).
  destruct (GrayMatter.matter empty parseMatter data (matter_cache p))
    as [[file|e] c'];
    cbn [world_of matter_cache snd]; eexists; eexists; split; reflexivity.
Qed.

(** After the files of [slugs] are loaded, the cache holds what it held
    and every text of theirs that can be stored. *)
Lemma mapP_stores slugs :
  forall p,
    exists l p',
      mapP (bySlug empty parseMatter dir label) slugs p = (Ok l, p') /\
      fs (world_of p') = fs (world_of p) /\
      (forall t,
          GrayMatter.cached (matter_cache p) t = true ->
          GrayMatter.cached (matter_cache p') t = true) /\
      (forall t,
          In t (FirstSight.texts dir (fs (world_of p)) slugs) ->
          String.eqb t "" = false ->
          GrayMatter.inherited t = false ->
          GrayMatter.cached (matter_cache p') t = true).
Proof.
  induction slugs as [|s slugs IH]; intros p; cbn [mapP].
  - exists [], p. repeat split; try (intros t []); auto.
  - destruct (bySlug_returns s p) as (r & w1 & E1 & F1).
    set (c1 := match
                 Fs.lookup (path_join dir (s ++ ".mdx")) (fs (world_of p))
               with
               | Some (Fs.File data) =>
                   snd (GrayMatter.matter empty parseMatter data
                          (matter_cache p))
               | _ => matter_cache p
               end) in E1.
    destruct (IH (mkProcess w1 c1)) as (l & p2 & E2 & F2 & Hkeep & Hnew).
    cbn [world_of matter_cache] in F2, Hkeep, Hnew. rewrite F1 in F2, Hnew.
    assert (Hgrow : forall t,
               GrayMatter.cached (matter_cache p) t = true ->
               GrayMatter.cached c1 t = true).
    { intros t Ht. unfold c1.
      destruct (Fs.lookup (path_join dir (s ++ ".mdx")) (fs (world_of p)))
        as [[data|es]|]; try exact Ht.
      apply (matter_stores data (matter_cache p)), Ht. }
    exists (r :: l), p2. unfold bindP at 1. rewrite E1.
    unfold bindP at 1. rewrite E2.
    split; [reflexivity|]. split; [exact F2|]. split.
    + intros t Ht. apply Hkeep, Hgrow, Ht.
    + intros t Hin Hne Hown. unfold FirstSight.texts in Hin.
      cbn [flat_map] in Hin. apply in_app_or in Hin.
      destruct Hin as [Hin|Hin]; [|exact (Hnew t Hin Hne Hown)].
      apply Hkeep. unfold c1.
      destruct (Fs.lookup (path_join dir (s ++ ".mdx")) (fs (world_of p)))
        as [[data|es]|]; try (destruct Hin; fail).
      destruct Hin as [<-|[]].
      apply (matter_stores data (matter_cache p)); assumption.
Qed.

Lemma bySlug_again slug p :
  (forall data,
      Fs.lookup (path_join dir (slug ++ ".mdx")) (fs (world_of p))
        = Some (Fs.File data) ->
      String.eqb data "" || GrayMatter.cached (matter_cache p) data = true) ->
  exists w',
    bySlug empty parseMatter dir label slug p =
      (Ok (option_map Full
             (Loader.read_slug dir (FirstSight.again empty parseMatter)
                (fs (world_of p)) slug)),
       mkProcess w' (matter_cache p)) /\
    fs w' = fs (world_of p).
Proof.
  intros Hstored.
  unfold bySlug, try_catchP, bindP, lift, readFileSync, matter, retP,
    console_error, Loader.read_slug.
  destruct (Fs.lookup (path_join dir (slug ++ ".mdx")) (fs (world_of p)))
    as [[data|es]|] eqn:El; cbn [world_of matter_cache];
    try (eexists; split; reflexivity).
  rewrite (matter_again data (matter_cache p) (Hstored data eq_refl)).
  destruct (FirstSight.again empty parseMatter data) as [[d b]|];
    cbn [world_of matter_cache option_map]; eexists; split; reflexivity.
Qed.

Lemma mapP_again slugs :
  forall p,
    (forall t,
        In t (FirstSight.texts dir (fs (world_of p)) slugs) ->
        String.eqb t "" || GrayMatter.cached (matter_cache p) t = true) ->
    exists p',
      mapP (bySlug empty parseMatter dir label) slugs p =
        (Ok (map
               (fun slug =>
                  option_map Full
                    (Loader.read_slug dir (FirstSight.again empty parseMatter)
                       (fs (world_of p)) slug))
               slugs), p') /\
      fs (world_of p') = fs (world_of p) /\
      matter_cache p' = matter_cache p.
Proof.
  induction slugs as [|s slugs IH]; intros p H; cbn [mapP map].
  - exists p. repeat split.
  - destruct (bySlug_again s p) as (w1 & E1 & F1).
    { intros data El. apply H. unfold FirstSight.texts. cbn [flat_map].
      rewrite El. left. reflexivity. }
    destruct (IH (mkProcess w1 (matter_cache p))) as (p2 & E2 & F2 & C2).
    { cbn [world_of matter_cache]. rewrite F1. intros t Ht. apply H.
      unfold FirstSight.texts. cbn [flat_map]. apply in_or_app. right.
      exact Ht. }
    cbn [world_of matter_cache] in E2, F2, C2. rewrite F1 in E2, F2.
    exists p2. unfold bindP at 1. rewrite E1. unfold bindP at 1. rewrite E2.
    repeat split; assumption.
Qed.

(** A load leaves a process in which every text of the directory that can
    be stored is stored. *)
Lemma load_stores listSlugs rest slugs p :
  listSlugs (world_of p) = (Ok slugs, world_of p) ->
  forallb (fun t => negb (GrayMatter.inherited t))
    (FirstSight.texts dir (fs (world_of p)) slugs) = true ->
  let p1 := snd (load empty parseMatter dir label listSlugs rest p) in
  fs (world_of p1) = fs (world_of p) /\
  forall t,
    In t (FirstSight.texts dir (fs (world_of p)) slugs) ->
    String.eqb t "" || GrayMatter.cached (matter_cache p1) t = true.
Proof.
  intros Hl Hown.
  destruct (mapP_stores slugs p) as (l & p' & E & Hfs & _ & Hnew).
  unfold load, bindP, lift. rewrite Hl.
  replace (mkProcess (world_of p) (matter_cache p)) with p
    by (destruct p; reflexivity).
  rewrite E. cbn [snd]. split; [exact Hfs|].
  intros t Ht. destruct (String.eqb t EmptyString) eqn:Ee; [reflexivity|].
  cbn [orb]. apply (Hnew t Ht Ee).
  rewrite forallb_forall in Hown. specialize (Hown t Ht).
  destruct (GrayMatter.inherited t); [discriminate|reflexivity].
Qed.

Lemma load_again listSlugs rest slugs p :
  listSlugs (world_of p) = (Ok slugs, world_of p) ->
  (forall t,
      In t (FirstSight.texts dir (fs (world_of p)) slugs) ->
      String.eqb t "" || GrayMatter.cached (matter_cache p) t = true) ->
  exists p',
    load empty parseMatter dir label listSlugs rest p =
      (rest
         (map Full
            (Loader.read_all dir (FirstSight.again empty parseMatter)
               (fs (world_of p)) slugs)), p') /\
    fs (world_of p') = fs (world_of p) /\
    matter_cache p' = matter_cache p.
Proof.
  intros Hl H. destruct (mapP_again slugs p H) as (p' & E & Hfs & Hc).
  exists p'. split; [|split; assumption].
  unfold load, bindP, lift. rewrite Hl.
  replace (mkProcess (world_of p) (matter_cache p)) with p
    by (destruct p; reflexivity).
  rewrite E. unfold Loader.read_all.
  rewrite <- filter_not_null_full, map_map. reflexivity.
Qed.

(** The load after a load, and the one after that. *)
Lemma load_twice_more listSlugs rest slugs p :
  (forall w,
      fs w = fs (world_of p) -> listSlugs w = (Ok slugs, w)) ->
  forallb (fun t => negb (GrayMatter.inherited t))
    (FirstSight.texts dir (fs (world_of p)) slugs) = true ->
  let run := load empty parseMatter dir label listSlugs rest in
  let again :=
    rest
      (map Full
         (Loader.read_all dir (FirstSight.again empty parseMatter)
            (fs (world_of p)) slugs)) in
  fst (run (snd (run p))) = again /\
  fst (run (snd (run (snd (run p))))) = again.
Proof.
  intros Hl Hown run again.
  destruct (load_stores listSlugs rest slugs p (Hl _ eq_refl) Hown)
    as (F1 & H1).
  fold run in F1, H1. set (p1 := snd (run p)) in *.
  rewrite <- F1 in H1.
  destruct (load_again listSlugs rest slugs p1 (Hl _ F1) H1)
    as (p2 & E2 & F2 & C2).
  fold run in E2. rewrite E2. cbn [fst snd].
  rewrite <- F2, <- C2 in H1. rewrite F1 in F2.
  destruct (load_again listSlugs rest slugs p2 (Hl _ F2) H1)
    as (p3 & E3 & _).
  fold run in E3. rewrite E3. cbn [fst]. unfold again.
  rewrite F1, F2. split; reflexivity.
Qed.

End Category.

Lemma getAllPostSlugs_listed w es :
  Fs.lookup Blog.POSTS_PATH (fs w) = Some (Fs.Dir es) ->
  Blog.getAllPostSlugs w = (Ok (Loader.slugs_of (map fst es)), w).
Proof.
  intros Hd. unfold Blog.getAllPostSlugs, bind, existsSync, readdirSync, ret.
  cbv beta. rewrite Hd. cbv beta iota. cbn [negb]. cbv beta iota.
  rewrite Hd. reflexivity.
Qed.

Lemma listSlugs_listed dir w es :
  Fs.lookup dir (fs w) = Some (Fs.Dir es) ->
  Loader.listSlugs dir w = (Ok (Loader.slugs_of (map fst es)), w).
Proof.
  intros Hd. rewrite LoaderFacts.listSlugs_run. unfold Loader.list_dir.
  rewrite Hd. reflexivity.
Qed.

Section Loaders.

Variable pv : string -> option (Ventures.VentureFrontmatter * string).
Variable pb : string -> option (Blog.BlogFrontmatter * string).
Variable pe : string -> option (Experiences.ExperienceFrontmatter * string).
Variable dt : string -> number.

(** At first sight of the texts of the directory, a loader in a process
    returns what the loader of Part 1 returns with [FirstSight.matter] for
    gray-matter. *)
Lemma getAllVentures_first_sight p es :
  Fs.lookup Ventures.venturesDirectory (fs (world_of p)) = Some (Fs.Dir es) ->
  FirstSight.holds empty_venture pv (matter_cache p)
    (FirstSight.texts Ventures.venturesDirectory (fs (world_of p))
       (Loader.slugs_of (map fst es))) = true ->
  exists p',
    getAllVentures pv p =
      (Returned
         (map Full
            (Array_sort Ventures.compareVentures
               (Loader.read_all Ventures.venturesDirectory
                  (FirstSight.matter empty_venture pv) (fs (world_of p))
                  (Loader.slugs_of (map fst es))))), p') /\
    fs (world_of p') = fs (world_of p).
Proof.
  intros Hd H. unfold getAllVentures.
  destruct (load_first_sight empty_venture pv Ventures.venturesDirectory
              "Error reading venture " Ventures.getAllVentureSlugs
              (sorted_by Ventures.compareVentures) _ p
              (listSlugs_listed _ _ _ Hd) H) as (p' & E & Hfs).
  exists p'. rewrite E, sorted_by_full. split; [reflexivity|exact Hfs].
Qed.

Lemma getAllExperiences_first_sight p es :
  Fs.lookup Experiences.experiencesDirectory (fs (world_of p))
    = Some (Fs.Dir es) ->
  FirstSight.holds empty_experience pe (matter_cache p)
    (FirstSight.texts Experiences.experiencesDirectory (fs (world_of p))
       (Loader.slugs_of (map fst es))) = true ->
  exists p',
    getAllExperiences pe p =
      (Returned
         (map Full
            (Array_sort Experiences.compareExperiences
               (Loader.read_all Experiences.experiencesDirectory
                  (FirstSight.matter empty_experience pe) (fs (world_of p))
                  (Loader.slugs_of (map fst es))))), p') /\
    fs (world_of p') = fs (world_of p).
Proof.
  intros Hd H. unfold getAllExperiences.
  destruct (load_first_sight empty_experience pe
              Experiences.experiencesDirectory "Error reading experience "
              Experiences.getAllExperienceSlugs
              (sorted_by Experiences.compareExperiences) _ p
              (listSlugs_listed _ _ _ Hd) H) as (p' & E & Hfs).
  exists p'. rewrite E, sorted_by_full. split; [reflexivity|exact Hfs].
Qed.

Lemma getAllPosts_first_sight includeUnpublished p es :
  Fs.lookup Blog.POSTS_PATH (fs (world_of p)) = Some (Fs.Dir es) ->
  FirstSight.holds empty_post pb (matter_cache p)
    (FirstSight.texts Blog.POSTS_PATH (fs (world_of p))
       (Loader.slugs_of (map fst es))) = true ->
  exists p',
    getAllPosts pb dt includeUnpublished p =
      (Returned
         (map Full
            (Array_sort (Blog.comparePosts dt)
               (filter (Run.keep includeUnpublished)
                  (Loader.read_all Blog.POSTS_PATH
                     (FirstSight.matter empty_post pb) (fs (world_of p))
                     (Loader.slugs_of (map fst es)))))), p') /\
    fs (world_of p') = fs (world_of p).
Proof.
  intros Hd H. unfold getAllPosts.
  destruct (load_first_sight empty_post pb Blog.POSTS_PATH
              "Error reading post " Blog.getAllPostSlugs
              (fun posts =>
                 match filter_throwing (keep_post includeUnpublished) posts
                 with
                 | Some kept => sorted_by (Blog.comparePosts dt) kept
                 | None => TypeError
                 end) _ p
              (getAllPostSlugs_listed _ _ Hd) H) as (p' & E & Hfs).
  exists p'. rewrite E, keep_post_full, sorted_by_full.
  split; [reflexivity|exact Hfs].
Qed.

End Loaders.

End ProcessFacts.

(** ** Files that fail to read or to parse *)

(** A first load and a second load of [posts_damaged] in one process. *)
Lemma posts_damaged_loads :
  let first :=
    Process.getAllPosts Examples.post_matter Examples.post_getTime false
      (MoreExamples.started Examples.posts_damaged) in
  let second :=
    Process.getAllPosts Examples.post_matter Examples.post_getTime false
      (snd first) in
  fst first
    = Returned
        [Process.Full (mkLoaded "bare" Process.empty_post "Just some text.");
         Process.Full (Examples.post "old" "2024-01-01" None)] /\
  fst second
    = Returned
        [Process.Full (mkLoaded "bare" Process.empty_post "Just some text.");
         Process.Full
           (mkLoaded "broken" Process.empty_post MoreExamples.broken_text);
         Process.Full (Examples.post "old" "2024-01-01" None)] /\
  fs (Process.world_of (snd first)) = fs Examples.posts_damaged /\
  console (Process.world_of (snd first))
    = ["Error reading post broken:"; "Error reading post folder:"] /\
  console (Process.world_of (snd second))
    = ["Error reading post broken:"; "Error reading post folder:";
       "Error reading post folder:"].
Proof. vm_compute. repeat split. Qed.

(** The claim has every returned record carry a complete header, and every
    file whose parse fails dropped.  A file without front matter parses to
    an empty header and is returned so, by the first load of a process; and
    the file whose header the YAML engine rejects is returned by the second
    load. *)
Lemma C8_partial_and_failed_files_are_returned :
  ~ (forall parsePost dt includeUnpublished p posts p',
        Process.getAllPosts parsePost dt includeUnpublished p
          = (Returned posts, p') ->
        forall e,
          In e posts ->
          exists r,
            e = Process.Full r /\ Blog.complete (frontmatter r) = true) /\
  ~ (forall parsePost dt includeUnpublished p posts p' s data,
        Process.getAllPosts parsePost dt includeUnpublished p
          = (Returned posts, p') ->
        Fs.lookup (path_join Blog.POSTS_PATH (s ++ ".mdx"))
          (fs (Process.world_of p)) = Some (Fs.File data) ->
        parsePost data = None ->
        forall r, In (Process.Full r) posts -> slug r <> s).
Proof.
  pose proof posts_damaged_loads as (R1 & R2 & Hfs & _). cbv zeta in *.
  destruct (Process.getAllPosts Examples.post_matter Examples.post_getTime
              false (MoreExamples.started Examples.posts_damaged))
    as [r1 p1] eqn:E1.
  cbn [fst snd] in *. subst r1.
  destruct (Process.getAllPosts Examples.post_matter Examples.post_getTime
              false p1) as [r2 p2] eqn:E2.
  cbn [fst] in R2. subst r2.
  split; intros H.
  - destruct (H _ _ _ _ _ _ E1 _ (or_introl eq_refl)) as (r & [= <-] & Hc).
    vm_compute in Hc. discriminate.
  - apply (H _ _ _ _ _ _ "broken" MoreExamples.broken_text E2
             ltac:(rewrite Hfs; reflexivity) eq_refl
             (mkLoaded "broken" Process.empty_post MoreExamples.broken_text)
             (or_intror (or_introl eq_refl))).
    reflexivity.
Qed.

(** C8, as the code has it.  Take a process and a category whose directory
    exists, and a load at the first sight of the texts: each text that
    gray-matter cannot parse is one that it has not stored before.  The
    loader returns, and returns records only, never null: exactly the
    records of the listed ".mdx" files that read and parse, for
    [getAllPosts] those among them that [includeUnpublished] or a
    [published] other than [false] lets through.  A file whose read or
    parse fails contributes nothing and stops nothing.  The header of a
    returned record is whatever the file parsed to; nothing checks that it
    is complete. *)
Theorem C8_failed_files_dropped_headers_unchecked pv pb dt pe p :
  let root := fs (Process.world_of p) in
  let c := Process.matter_cache p in
  (forall es,
      Fs.lookup Ventures.venturesDirectory root = Some (Fs.Dir es) ->
      FirstSight.holds Process.empty_venture pv c
        (FirstSight.texts Ventures.venturesDirectory root
           (Loader.slugs_of (map fst es))) = true ->
      exists vs p',
        Process.getAllVentures pv p = (Returned (map Process.Full vs), p') /\
        Loader.loads Ventures.venturesDirectory
          (FirstSight.matter Process.empty_venture pv) root vs) /\
  (forall es includeUnpublished,
      Fs.lookup Blog.POSTS_PATH root = Some (Fs.Dir es) ->
      FirstSight.holds Process.empty_post pb c
        (FirstSight.texts Blog.POSTS_PATH root
           (Loader.slugs_of (map fst es))) = true ->
      exists posts p',
        Process.getAllPosts pb dt includeUnpublished p
          = (Returned (map Process.Full posts), p') /\
        (forall r,
            In r posts <->
            Loader.on_disk Blog.POSTS_PATH
              (FirstSight.matter Process.empty_post pb) root r /\
            (includeUnpublished = true \/
             Blog.published (frontmatter r) <> Some false)) /\
        (forall name,
            Str.endsWith name ".mdx" = true ->
            Loader.fails Blog.POSTS_PATH
              (FirstSight.matter Process.empty_post pb) root name ->
            forall r, In r posts -> slug r <> Str.strip_mdx name)) /\
  (forall es,
      Fs.lookup Experiences.experiencesDirectory root = Some (Fs.Dir es) ->
      FirstSight.holds Process.empty_experience pe c
        (FirstSight.texts Experiences.experiencesDirectory root
           (Loader.slugs_of (map fst es))) = true ->
      exists xs p',
        Process.getAllExperiences pe p
          = (Returned (map Process.Full xs), p') /\
        Loader.loads Experiences.experiencesDirectory
          (FirstSight.matter Process.empty_experience pe) root xs).
Proof.
  intros root c. split; [|split].
  - intros es Hd H.
    destruct (ProcessFacts.getAllVentures_first_sight pv p es Hd H)
      as (p' & E & _).
    eexists. exists p'. split; [exact E|].
    apply OnDisk.loads_read_all, Hd.
  - intros es b Hd H.
    destruct (ProcessFacts.getAllPosts_first_sight pb dt b p es Hd H)
      as (p' & E & _).
    eexists. exists p'. split; [exact E|].
    pose proof (fun r =>
                  in_getAllPosts (FirstSight.matter Process.empty_post pb) dt
                    b root es r Hd) as Hin.
    split; [exact Hin|].
    intros name He Hf r Hr Hs. apply Hin in Hr. destruct Hr as [Hr _].
    exact (OnDisk.on_disk_not_failed Blog.POSTS_PATH _ root r name Hr He Hs
             Hf).
  - intros es Hd H.
    destruct (ProcessFacts.getAllExperiences_first_sight pe p es Hd H)
      as (p' & E & _).
    eexists. exists p'. split; [exact E|].
    apply OnDisk.loads_read_all, Hd.
Qed.

Lemma C8_failed_files_dropped_headers_unchecked_witness :
  (exists posts p',
      Process.getAllPosts Examples.post_matter Examples.post_getTime false
        (MoreExamples.started Examples.posts_damaged)
        = (Returned (map Process.Full posts), p') /\
      map slug posts = ["bare"; "old"]) /\
  (exists posts p',
      Process.getAllPosts Examples.post_matter Examples.post_getTime false
        (MoreExamples.started Examples.posts_mixed)
        = (Returned (map Process.Full posts), p') /\
      map slug posts = ["new"; "old"]) /\
  (exists posts p',
      Process.getAllPosts Examples.post_matter Examples.post_getTime true
        (MoreExamples.started Examples.posts_mixed)
        = (Returned (map Process.Full posts), p') /\
      map slug posts = ["new"; "draft"; "old"]).
Proof.
  pose proof (C8_failed_files_dropped_headers_unchecked
                Examples.venture_matter Examples.post_matter
                Examples.post_getTime Examples.experience_matter
                (MoreExamples.started Examples.posts_damaged))
    as (_ & Hdamaged & _).
  pose proof (C8_failed_files_dropped_headers_unchecked
                Examples.venture_matter Examples.post_matter
                Examples.post_getTime Examples.experience_matter
                (MoreExamples.started Examples.posts_mixed))
    as (_ & Hmixed & _).
  split; [|split].
  - destruct (Hdamaged _ false eq_refl eq_refl) as (posts & p' & E & _).
    exists posts, p'. split; [exact E|].
    assert (R : fst (Process.getAllPosts Examples.post_matter
                       Examples.post_getTime false
                       (MoreExamples.started Examples.posts_damaged))
                = Returned (map Process.Full posts))
      by (rewrite E; reflexivity).
    vm_compute in R. injection R as R.
    destruct posts as [|a [|b [|x posts]]]; try discriminate.
    injection R as <- <-. reflexivity.
  - destruct (Hmixed _ false eq_refl eq_refl) as (posts & p' & E & _).
    exists posts, p'. split; [exact E|].
    assert (R : fst (Process.getAllPosts Examples.post_matter
                       Examples.post_getTime false
                       (MoreExamples.started Examples.posts_mixed))
                = Returned (map Process.Full posts))
      by (rewrite E; reflexivity).
    vm_compute in R. injection R as R.
    destruct posts as [|a [|b [|x posts]]]; try discriminate.
    injection R as <- <-. reflexivity.
  - destruct (Hmixed _ true eq_refl eq_refl) as (posts & p' & E & _).
    exists posts, p'. split; [exact E|].
    assert (R : fst (Process.getAllPosts Examples.post_matter
                       Examples.post_getTime true
                       (MoreExamples.started Examples.posts_mixed))
                = Returned (map Process.Full posts))
      by (rewrite E; reflexivity).
    vm_compute in R. injection R as R.
    destruct posts as [|a [|b [|x [|y posts]]]]; try discriminate.
    injection R as <- <- <-. reflexivity.
Defined.

(** ** Loading twice *)

(** C9.  Two loads of one directory in one process differ.  [broken.mdx]
    has a header that the YAML engine rejects: the first [getAllPosts()]
    logs the error and leaves the file out; the second one, on the same
    tree, returns it, with the header [{}] and the whole text as its
    content, and logs nothing for it. *)
Theorem C9_second_load_returns_the_dropped_file :
  let first :=
    Process.getAllPosts Examples.post_matter Examples.post_getTime false
      (MoreExamples.started Examples.posts_damaged) in
  let second :=
    Process.getAllPosts Examples.post_matter Examples.post_getTime false
      (snd first) in
  fs (Process.world_of (snd first)) = fs Examples.posts_damaged /\
  fst first
    = Returned
        [Process.Full (mkLoaded "bare" Process.empty_post "Just some text.");
         Process.Full (Examples.post "old" "2024-01-01" None)] /\
  fst second
    = Returned
        [Process.Full (mkLoaded "bare" Process.empty_post "Just some text.");
         Process.Full
           (mkLoaded "broken" Process.empty_post MoreExamples.broken_text);
         Process.Full (Examples.post "old" "2024-01-01" None)] /\
  fst second <> fst first.
Proof.
  pose proof posts_damaged_loads as (R1 & R2 & Hfs & _). cbv zeta in *.
  split; [exact Hfs|]. split; [exact R1|]. split; [exact R2|].
  rewrite R1, R2. intros H. discriminate H.
Qed.

(** * Part 4: further properties of the code *)

(** ** The per-file loaders *)

Module MoreFacts.

Section Shape.

Context {F : Type}.
Variable dir : Fs.path.
Variable label : string.
Variable matter : string -> option (F * string).




End Shape.

Lemma slugs_of_names names :
  map (fun slug => slug ++ ".mdx")%string (Loader.slugs_of names) =
  filter (fun name => Str.endsWith name ".mdx") names.
Proof.
  unfold Loader.slugs_of. induction names as [|n names IH]; [reflexivity|].
  cbn [filter]. destruct (Str.endsWith n ".mdx") eqn:E; [|exact IH].
  cbn [map]. rewrite IH, (StrFacts.strip_mdx_append _ E). reflexivity.
Qed.

End MoreFacts.



(** X2.  Where the directory exists, the slugs a loader lists are the names
    of its ".mdx" files without the extension, in directory order: putting
    the extension back gives those names, and every other file is left
    out.  The listing changes nothing in the world. *)
Theorem X2_slugs_are_the_mdx_names w :
  (forall es,
      Fs.lookup Ventures.venturesDirectory (fs w) = Some (Fs.Dir es) ->
      exists slugs,
        Ventures.getAllVentureSlugs w = (Ok slugs, w) /\
        map (fun slug => slug ++ ".mdx")%string slugs = More.mdx_names es) /\
  (forall es,
      Fs.lookup Blog.POSTS_PATH (fs w) = Some (Fs.Dir es) ->
      exists slugs,
        Blog.getAllPostSlugs w = (Ok slugs, w) /\
        map (fun slug => slug ++ ".mdx")%string slugs = More.mdx_names es) /\
  (forall es,
      Fs.lookup Experiences.experiencesDirectory (fs w) = Some (Fs.Dir es) ->
      exists slugs,
        Experiences.getAllExperienceSlugs w = (Ok slugs, w) /\
        map (fun slug => slug ++ ".mdx")%string slugs = More.mdx_names es).
Proof.
  split; [|split]; intros es Hd; exists (Loader.slugs_of (map fst es));
    (split; [|apply MoreFacts.slugs_of_names]).
  - rewrite VenturesFacts.getAllVentureSlugs_run. unfold Loader.list_dir.
    rewrite Hd. reflexivity.
  - unfold Blog.getAllPostSlugs, bind, existsSync, readdirSync, ret.
    cbv beta. rewrite Hd. cbv beta iota. cbn [negb]. cbv beta iota.
    rewrite Hd. reflexivity.
  - rewrite ExperiencesFacts.getAllExperienceSlugs_run. unfold Loader.list_dir.
    rewrite Hd. reflexivity.
Qed.

Lemma X2_slugs_are_the_mdx_names_witness :
  exists slugs,
    Blog.getAllPostSlugs Examples.posts_mixed = (Ok slugs, Examples.posts_mixed) /\
    map (fun slug => slug ++ ".mdx")%string slugs
      = ["old.mdx"; "draft.mdx"; "new.mdx"].
Proof.
  destruct (X2_slugs_are_the_mdx_names Examples.posts_mixed) as (_ & Hp & _).
  exact (Hp _ eq_refl).
Defined.

(** ** From a listing back to a file *)









(** ** Orders the sorts do give *)

Module SortMore.






End SortMore.










(** ** Featured ventures *)



(** ** The queries by category and by tag *)

Module QueryFacts.


Lemma filter_throwing_throws {A} (f : A -> option bool) l a :
  In a l -> f a = None -> filter_throwing f l = None.
Proof.
  induction l as [|b l IH]; intros Hin Ha; [destruct Hin|].
  cbn [filter_throwing]. destruct Hin as [->|Hin].
  - rewrite Ha. reflexivity.
  - destruct (f b); [|reflexivity]. rewrite (IH Hin Ha). reflexivity.
Qed.

Lemma in_default_posts mb dt root es p :
  Fs.lookup Blog.POSTS_PATH root = Some (Fs.Dir es) ->
  In p (Array_sort (Blog.comparePosts dt)
          (filter (Run.keep false)
             (Loader.read_all Blog.POSTS_PATH mb root
                (Loader.slugs_of (map fst es))))) <->
  More.listed mb root p.
Proof.
  intros Hd. rewrite (in_getAllPosts mb dt false root es p Hd).
  unfold More.listed. split; intros [H1 H2]; split; auto.
  destruct H2 as [H2|H2]; [discriminate|exact H2].
Qed.

Lemma filterPosts_run mb dt f w es :
  Fs.lookup Blog.POSTS_PATH (fs w) = Some (Fs.Dir es) ->
  exists posts w',
    Blog.getAllPosts mb dt false w = (Ok posts, w') /\
    (forall p, In p posts <-> More.listed mb (fs w) p) /\
    BlogQueries.filterPosts mb dt f w =
      (match filter_throwing f posts with
       | Some kept => Returned kept
       | None => TypeError
       end, w').
Proof.
  intros Hd. destruct (getAllPosts_listed mb dt false w es Hd) as (w' & E & _).
  eexists. exists w'. split; [exact E|].
  split; [intros p; apply in_default_posts, Hd|].
  unfold BlogQueries.filterPosts. rewrite E. reflexivity.
Qed.

End QueryFacts.





(** X12.  One listed post whose header lacks [category] makes
    [getPostsByCategory] end in a TypeError for every category asked, and
    one listed post whose header lacks [tags] does the same to
    [getPostsByTag]: the filter calls a method on [undefined], outside any
    try. *)
Theorem X12_queries_throw_on_a_missing_field mb dt w es p :
  Fs.lookup Blog.POSTS_PATH (fs w) = Some (Fs.Dir es) ->
  More.listed mb (fs w) p ->
  (Blog.category (frontmatter p) = None ->
   forall category,
     fst (BlogQueries.getPostsByCategory mb dt category w) = TypeError) /\
  (Blog.tags (frontmatter p) = None ->
   forall tag, fst (BlogQueries.getPostsByTag mb dt tag w) = TypeError).
Proof.
  intros Hd Hp. split; intros Hnone x.
  - destruct (QueryFacts.filterPosts_run mb dt (BlogQueries.category_is x)
                w es Hd) as (posts & w' & _ & Hin & Hrun).
    unfold BlogQueries.getPostsByCategory. rewrite Hrun. cbn [fst].
    rewrite (QueryFacts.filter_throwing_throws _ posts p); [reflexivity| |].
    + apply Hin, Hp.
    + unfold BlogQueries.category_is. rewrite Hnone. reflexivity.
  - destruct (QueryFacts.filterPosts_run mb dt (BlogQueries.has_tag x)
                w es Hd) as (posts & w' & _ & Hin & Hrun).
    unfold BlogQueries.getPostsByTag. rewrite Hrun. cbn [fst].
    rewrite (QueryFacts.filter_throwing_throws _ posts p); [reflexivity| |].
    + apply Hin, Hp.
    + unfold BlogQueries.has_tag. rewrite Hnone. reflexivity.
Qed.

Lemma X12_queries_throw_on_a_missing_field_witness :
  fst (BlogQueries.getPostsByCategory MoreExamples.tagged_matter
         Examples.post_getTime "AI" MoreExamples.posts_untagged) = TypeError.
Proof.
  apply (X12_queries_throw_on_a_missing_field MoreExamples.tagged_matter
           Examples.post_getTime MoreExamples.posts_untagged _
           (mkLoaded "bare" MoreExamples.untagged_header "Body") eq_refl);
    [|reflexivity].
  split; [|discriminate].
  eexists. exists "bare.mdx". eexists.
  split; [reflexivity|]. split; [right; left; reflexivity|].
  split; [reflexivity|]. split; [reflexivity|].
  split; [reflexivity|]. reflexivity.
Defined.

(** ** The neighbours of a post *)

Module AdjacentFacts.

Lemma findIndex_from_found {A} (p : A -> bool) l1 a l2 : forall i,
  p a = true ->
  (forall q, In q l1 -> p q = false) ->
  findIndex_from p (l1 ++ a :: l2) i = (i + Z.of_nat (List.length l1))%Z.
Proof.
  induction l1 as [|b l1 IH]; intros i Ha Hl1; cbn [app findIndex_from].
  - rewrite Ha. cbn. lia.
  - rewrite (Hl1 b (or_introl eq_refl)).
    rewrite IH by (auto; intros q Hq; apply Hl1; right; exact Hq).
    cbn [List.length]. lia.
Qed.


Lemma nth_error_after {A} (l1 : list A) a l2 :
  nth_error (l1 ++ a :: l2) (S (List.length l1)) = hd_error l2.
Proof.
  induction l1 as [|b l1 IH]; cbn; [destruct l2; reflexivity|exact IH].
Qed.

Lemma nth_error_before {A} (l1 : list A) a l2 :
  l1 <> [] ->
  nth_error (l1 ++ a :: l2) (List.length l1 - 1) = hd_error (rev l1).
Proof.
  intros Hne. destruct (exists_last Hne) as (l0 & z & ->).
  rewrite rev_app_distr, length_app. cbn [rev app hd_error List.length].
  replace (List.length l0 + 1 - 1)%nat with (List.length l0) by lia.
  rewrite <- app_assoc. cbn [app].
  rewrite nth_error_app2 by lia. rewrite Nat.sub_diag. reflexivity.
Qed.

End AdjacentFacts.

(** X13.  For a post that is in the list, at its first occurrence,
    [getAdjacentPosts] computes as [previous] the post that follows it in
    the list (the next older one) and as [next] the post that precedes it;
    the last post has no [previous] and the first no [next]. *)
Theorem X13_adjacent_posts_of_a_listed_post l1 p l2 s :
  slug p = s ->
  (forall q, In q l1 -> slug q <> s) ->
  BlogPostPage.adjacent (l1 ++ p :: l2) s =
  BlogPostPage.mkAdjacent (hd_error l2) (hd_error (rev l1)).
Proof.
  intros Hp Hl1. unfold BlogPostPage.adjacent, findIndex.
  rewrite AdjacentFacts.findIndex_from_found;
    [|apply String.eqb_eq, Hp
     |intros q Hq; apply String.eqb_neq, Hl1, Hq].
  rewrite length_app. f_equal.
  - destruct l2 as [|b l2]; cbn [List.length hd_error];
      match goal with
      | |- context [(?x <? ?y)%Z] => destruct (Z.ltb_spec x y)
      end; try lia; try reflexivity.
    unfold at_index.
    match goal with
    | |- context [(?x <? ?y)%Z] => destruct (Z.ltb_spec x y)
    end; [lia|].
    replace (Z.to_nat (0 + Z.of_nat (List.length l1) + 1))
      with (S (List.length l1)) by lia.
    apply (AdjacentFacts.nth_error_after l1 p (b :: l2)).
  - destruct l1 as [|b l1]; [reflexivity|].
    match goal with
    | |- context [(?x <? ?y)%Z] => destruct (Z.ltb_spec x y)
    end; [|cbn [List.length] in *; lia].
    unfold at_index.
    match goal with
    | |- context [(?x <? ?y)%Z] => destruct (Z.ltb_spec x y)
    end; [cbn [List.length] in *; lia|].
    replace (Z.to_nat (0 + Z.of_nat (List.length (b :: l1)) - 1))
      with (List.length (b :: l1) - 1)%nat by lia.
    apply AdjacentFacts.nth_error_before. discriminate.
Qed.

Lemma X13_adjacent_posts_of_a_listed_post_witness :
  BlogPostPage.adjacent
    [Examples.post "new" "2024-06-01" (Some true);
     Examples.post "old" "2024-01-01" None] "old"
  = BlogPostPage.mkAdjacent None
      (Some (Examples.post "new" "2024-06-01" (Some true))).
Proof.
  apply (X13_adjacent_posts_of_a_listed_post
           [Examples.post "new" "2024-06-01" (Some true)]
           (Examples.post "old" "2024-01-01" None) [] "old").
  - reflexivity.
  - intros q [<-|[]]. discriminate.
Defined.



(** ** Anchors are fixed points *)

Module AnchorMore.
Import Anchor.

Lemma toLowerCase_char_fixed c :
  Str.isLowerAlnum c || Ascii.eqb c Str.dash = true ->
  Str.toLowerCase_char c = c.
Proof.
  destruct c as [[] [] [] [] [] [] [] []]; vm_compute; intros H;
    try reflexivity; discriminate.
Qed.

Lemma toLowerCase_fixed s :
  More.anchor_chars s = true -> Str.toLowerCase s = s.
Proof.
  induction s as [|c s IH]; [reflexivity|]. cbn. intros H.
  apply andb_prop in H. destruct H as [Hc Hs].
  rewrite (toLowerCase_char_fixed c Hc), (IH Hs). reflexivity.
Qed.

Lemma anchor_chars_app a b :
  More.anchor_chars (a ++ b) = More.anchor_chars a && More.anchor_chars b.
Proof.
  induction a as [|c a IH]; [reflexivity|]. cbn. rewrite IH.
  rewrite andb_assoc. reflexivity.
Qed.

Lemma run_anchor_chars r : all_alnum r = true -> More.anchor_chars r = true.
Proof.
  induction r as [|c r IH]; [reflexivity|]. cbn. intros H.
  apply andb_prop in H. destruct H as [Hc Hr]. rewrite Hc, (IH Hr).
  reflexivity.
Qed.

Lemma concat_anchor_chars rs :
  Forall is_run rs -> More.anchor_chars (String.concat "-" rs) = true.
Proof.
  induction 1 as [|r rs [_ Hr] Hrs IH]; [reflexivity|].
  destruct rs as [|r' rs']; [apply run_anchor_chars, Hr|].
  change (String.concat "-" (r :: r' :: rs'))
    with (r ++ String Str.dash (String.concat "-" (r' :: rs')))%string.
  rewrite anchor_chars_app, (run_anchor_chars r Hr).
  cbn [More.anchor_chars andb]. rewrite IH. reflexivity.
Qed.

Lemma double_dash_cons c d s :
  More.double_dash (String c (String d s)) =
  (Ascii.eqb c Str.dash && Ascii.eqb d Str.dash)
  || More.double_dash (String d s).
Proof. reflexivity. Qed.

Lemma double_dash_run r rest :
  is_run r ->
  first_is_dash rest = false ->
  More.double_dash rest = false ->
  More.double_dash (r ++ String Str.dash rest) = false.
Proof.
  intros [Hne Ha] Hf Hd. induction r as [|c r IH]; [congruence|].
  cbn in Ha. apply andb_prop in Ha. destruct Ha as [Hc Hr].
  destruct r as [|c' r'].
  - change (String c EmptyString ++ String Str.dash rest)%string
      with (String c (String Str.dash rest)).
    rewrite double_dash_cons, (AnchorFacts.alnum_not_dash c Hc).
    cbn [andb orb]. destruct rest as [|d rest']; [reflexivity|].
    rewrite double_dash_cons. cbn [first_is_dash] in Hf.
    rewrite Hf, andb_false_r. cbn [orb]. exact Hd.
  - change (String c (String c' r') ++ String Str.dash rest)%string
      with (String c (String c' (r' ++ String Str.dash rest))).
    rewrite double_dash_cons, (AnchorFacts.alnum_not_dash c Hc).
    cbn [andb orb]. apply IH; [discriminate|exact Hr].
Qed.

Lemma double_dash_of_run r : is_run r -> More.double_dash r = false.
Proof.
  intros [Hne Ha]. induction r as [|c r IH]; [congruence|].
  cbn in Ha. apply andb_prop in Ha. destruct Ha as [Hc Hr].
  destruct r as [|c' r']; [reflexivity|].
  rewrite double_dash_cons, (AnchorFacts.alnum_not_dash c Hc).
  cbn [andb orb]. apply IH; [discriminate|exact Hr].
Qed.

Lemma concat_no_double_dash rs :
  Forall is_run rs -> More.double_dash (String.concat "-" rs) = false.
Proof.
  induction 1 as [|r rs Hr Hrs IH]; [reflexivity|].
  destruct rs as [|r' rs']; [apply double_dash_of_run, Hr|].
  change (String.concat "-" (r :: r' :: rs'))
    with (r ++ String Str.dash (String.concat "-" (r' :: rs')))%string.
  apply double_dash_run; [exact Hr| |exact IH].
  apply AnchorFacts.concat_runs_first, Hrs.
Qed.

Lemma starts_alnum_app r rest :
  r <> EmptyString -> starts_alnum (r ++ rest) = starts_alnum r.
Proof. destruct r; [congruence|reflexivity]. Qed.

Lemma alnum_runs_of_run r : is_run r -> alnum_runs r = [r].
Proof.
  intros [Hne Ha]. induction r as [|c r IH]; [congruence|].
  cbn in Ha. apply andb_prop in Ha. destruct Ha as [Hc Hr].
  cbn [alnum_runs]. rewrite Hc. destruct r as [|c' r']; [reflexivity|].
  cbn [starts_alnum]. cbn in Hr. apply andb_prop in Hr.
  destruct Hr as [Hc' Hr']. rewrite Hc'.
  rewrite IH; [reflexivity|discriminate|cbn; rewrite Hc', Hr'; reflexivity].
Qed.

Lemma alnum_runs_run_dash r rest :
  is_run r ->
  alnum_runs (r ++ String Str.dash rest) = r :: alnum_runs rest.
Proof.
  intros [Hne Ha]. induction r as [|c r IH]; [congruence|].
  cbn in Ha. apply andb_prop in Ha. destruct Ha as [Hc Hr].
  cbn [append alnum_runs]. rewrite Hc. destruct r as [|c' r'].
  - cbn [append starts_alnum alnum_runs]. reflexivity.
  - cbn in Hr. apply andb_prop in Hr. destruct Hr as [Hc' Hr'].
    cbn [append starts_alnum]. rewrite Hc'.
    change (String c' (r' ++ String Str.dash rest))
      with (String c' r' ++ String Str.dash rest)%string.
    rewrite IH; [reflexivity|discriminate|cbn; rewrite Hc', Hr'; reflexivity].
Qed.

Lemma alnum_runs_concat rs :
  Forall is_run rs -> alnum_runs (String.concat "-" rs) = rs.
Proof.
  induction 1 as [|r rs Hr Hrs IH]; [reflexivity|].
  destruct rs as [|r' rs']; [apply alnum_runs_of_run, Hr|].
  change (String.concat "-" (r :: r' :: rs'))
    with (r ++ String Str.dash (String.concat "-" (r' :: rs')))%string.
  rewrite (alnum_runs_run_dash r _ Hr), IH. reflexivity.
Qed.

End AnchorMore.

(** X15.  The anchor of every title is made of the characters [a-z0-9] and
    "-" only and has no two "-" in a row; deriving the anchor of an anchor
    gives the anchor back. *)
Theorem X15_heading_id_is_a_fixed_point title :
  More.anchor_chars (BlogPage.heading_id title) = true /\
  More.double_dash (BlogPage.heading_id title) = false /\
  BlogPage.heading_id (BlogPage.heading_id title) = BlogPage.heading_id title.
Proof.
  rewrite !heading_id_anchor_spec. unfold Anchor.anchor_spec.
  pose proof (AnchorFacts.alnum_runs_are_runs (Str.toLowerCase title)) as H.
  pose proof (AnchorMore.concat_anchor_chars _ H) as Hc.
  split; [exact Hc|]. split; [apply AnchorMore.concat_no_double_dash, H|].
  rewrite (AnchorMore.toLowerCase_fixed _ Hc).
  rewrite (AnchorMore.alnum_runs_concat _ H). reflexivity.
Qed.

(** ** Reading time *)

Lemma of_N_min_read n : (Str.of_N n ++ " min read")%string <> EmptyString.
Proof.
  destruct (Str.of_N n); cbn; discriminate.
Qed.

(** X16.  [calculateReadingTime] never answers less than one minute: the
    number it prints is at least 1 for every body.  For a body that is not
    empty and neither starts nor ends with white space, the number is the
    ceiling of its word count over 200. *)
Theorem X16_reading_time_at_least_one_minute content :
  (exists minutes,
      (1 <= minutes)%N /\
      Blog.calculateReadingTime content
        = (Str.of_N minutes ++ " min read")%string) /\
  (Words.is_empty content = false ->
   Words.starts_with_space content = false ->
   Words.ends_with_space content = false ->
   Blog.calculateReadingTime content =
   (Str.of_N (Math_ceil_div (N.of_nat (Words.words content)) 200)
    ++ " min read")%string).
Proof.
  split; [|apply ReadingTime.calculateReadingTime_trimmed].
  exists (Math_ceil_div (Blog.wordCount content) Blog.wordsPerMinute).
  split; [|reflexivity].
  pose proof (ReadingTime.wordCount_positive content) as Hp.
  destruct (ReadingTime.Math_ceil_div_spec (Blog.wordCount content)
              Blog.wordsPerMinute ltac:(reflexivity)) as [Hle _].
  unfold Blog.wordsPerMinute in *. 
  destruct (Math_ceil_div (Blog.wordCount content) 200); lia.
Qed.

Lemma X16_reading_time_at_least_one_minute_witness :
  Blog.calculateReadingTime Words.words450 = "3 min read".
Proof.
  destruct (X16_reading_time_at_least_one_minute Words.words450) as [_ H].
  rewrite H by reflexivity. vm_compute. reflexivity.
Defined.

(** X17.  The reading time the page of a post shows is the [readingTime] of
    the header when that is a non-empty string and the computed one
    otherwise; it is never the empty string. *)
Theorem X17_page_reading_time_never_empty (post : Blog.BlogPost) :
  BlogPostPage.readingTime post <> EmptyString /\
  (forall given,
      Blog.readingTime (frontmatter post) = Some given ->
      given <> EmptyString ->
      BlogPostPage.readingTime post = given) /\
  (Blog.readingTime (frontmatter post) = None \/
   Blog.readingTime (frontmatter post) = Some EmptyString ->
   BlogPostPage.readingTime post = Blog.calculateReadingTime (content post)).
Proof.
  unfold BlogPostPage.readingTime.
  destruct (Blog.readingTime (frontmatter post)) as [[|c g]|].
  - split; [apply of_N_min_read|]. split; [|reflexivity].
    intros given [= <-] H. congruence.
  - split; [discriminate|]. split; [intros given [= <-] _; reflexivity|].
    intros [H|H]; discriminate.
  - split; [apply of_N_min_read|]. split; [discriminate|reflexivity].
Qed.

Lemma X17_page_reading_time_never_empty_witness :
  BlogPostPage.readingTime
    (mkLoaded "p"
       (Blog.mkFrontmatter None None None None None None None
          (Some "7 min read") None) "") = "7 min read".
Proof.
  apply (X17_page_reading_time_never_empty
           (mkLoaded "p"
              (Blog.mkFrontmatter None None None None None None None
                 (Some "7 min read") None) ""));
    [reflexivity|discriminate].
Defined.

(** ** What a card shows *)

Module CardFacts.


Lemma regular_metrics_length toUpperCase Number_toString o :
  List.length (Card.regular_metrics toUpperCase Number_toString o) =
  List.length (filter (fun e => negb (Card.is_legacy_key (fst e))) o).
Proof.
  unfold Card.regular_metrics.
  induction o as [|[key value] o IH]; [reflexivity|].
  cbn [flat_map filter fst]. destruct (Card.is_legacy_key key); cbn; lia.
Qed.


End CardFacts.



(** X19.  The chips of a card lose nothing: the technologies shown and the
    number behind the "+" add up to the length of the list, the "+" chip
    appears exactly when there are more than four and then counts at least
    one; the same holds for the tags of a post card, with three. *)
Theorem X19_chips_and_counter_add_up (l : list string) :
  (List.length (Card.shown_technologies l)
   + match Card.more_technologies l with Some n => n | None => 0 end
   = List.length l)%nat /\
  (Card.more_technologies l = None <-> (List.length l <= 4)%nat) /\
  (forall n, Card.more_technologies l = Some n -> (1 <= n)%nat) /\
  (List.length (Card.shown_tags l)
   + match Card.more_tags l with Some n => n | None => 0 end
   = List.length l)%nat /\
  (Card.more_tags l = None <-> (List.length l <= 3)%nat) /\
  (forall n, Card.more_tags l = Some n -> (1 <= n)%nat).
Proof.
  unfold Card.shown_technologies, Card.more_technologies, Card.shown_tags,
    Card.more_tags. rewrite !length_firstn.
  destruct (Nat.ltb_spec 4 (List.length l)), (Nat.ltb_spec 3 (List.length l));
    repeat split; try lia; try discriminate;
    try (intros n [= <-]; lia); intros; exfalso; lia.
Qed.

Lemma X19_chips_and_counter_add_up_witness :
  Card.more_technologies ["a"; "b"; "c"; "d"; "e"; "f"] = Some 2%nat.
Proof.
  destruct (Card.more_technologies ["a"; "b"; "c"; "d"; "e"; "f"]) as [n|] eqn:E.
  - destruct (X19_chips_and_counter_add_up ["a"; "b"; "c"; "d"; "e"; "f"])
      as (Hsum & _).
    rewrite E in Hsum. cbn in Hsum. f_equal. lia.
  - discriminate.
Defined.

(** ** The recent posts of the home page *)




(** ** Loading twice the files that parse *)

(** X21.  Where gray-matter parses every listed file that can be read,
    loading twice in one process gives the same: a second [getAllVentures],
    [getAllPosts] or [getAllExperiences], started in the process the first
    one left, returns the list the first one returned, whatever the cache
    held before. *)
Theorem X21_loads_agree_when_every_file_parses pv pb dt pe includeUnpublished
    p :
  let root := fs (Process.world_of p) in
  (forall es,
      Fs.lookup Ventures.venturesDirectory root = Some (Fs.Dir es) ->
      forallb (FirstSight.parses pv)
        (FirstSight.texts Ventures.venturesDirectory root
           (Loader.slugs_of (map fst es))) = true ->
      exists vs,
        fst (Process.getAllVentures pv p) = Returned vs /\
        fst (Process.getAllVentures pv (snd (Process.getAllVentures pv p)))
          = Returned vs) /\
  (forall es,
      Fs.lookup Blog.POSTS_PATH root = Some (Fs.Dir es) ->
      forallb (FirstSight.parses pb)
        (FirstSight.texts Blog.POSTS_PATH root
           (Loader.slugs_of (map fst es))) = true ->
      exists posts,
        fst (Process.getAllPosts pb dt includeUnpublished p)
          = Returned posts /\
        fst (Process.getAllPosts pb dt includeUnpublished
               (snd (Process.getAllPosts pb dt includeUnpublished p)))
          = Returned posts) /\
  (forall es,
      Fs.lookup Experiences.experiencesDirectory root = Some (Fs.Dir es) ->
      forallb (FirstSight.parses pe)
        (FirstSight.texts Experiences.experiencesDirectory root
           (Loader.slugs_of (map fst es))) = true ->
      exists xs,
        fst (Process.getAllExperiences pe p) = Returned xs /\
        fst (Process.getAllExperiences pe
               (snd (Process.getAllExperiences pe p)))
          = Returned xs).
Proof.
  intros root. split; [|split]; intros es Hd Hall.
  - destruct (ProcessFacts.getAllVentures_first_sight pv p es Hd
                (ProcessFacts.parses_holds _ _ _ Hall _)) as (p1 & E1 & F1).
    rewrite E1. cbn [fst snd]. eexists. split; [reflexivity|].
    fold root in F1. rewrite <- F1 in Hd, Hall.
    destruct (ProcessFacts.getAllVentures_first_sight pv p1 es Hd
                (ProcessFacts.parses_holds _ _ _ Hall _)) as (p2 & E2 & _).
    rewrite E2, F1. reflexivity.
  - destruct (ProcessFacts.getAllPosts_first_sight pb dt includeUnpublished p
                es Hd (ProcessFacts.parses_holds _ _ _ Hall _))
      as (p1 & E1 & F1).
    rewrite E1. cbn [fst snd]. eexists. split; [reflexivity|].
    fold root in F1. rewrite <- F1 in Hd, Hall.
    destruct (ProcessFacts.getAllPosts_first_sight pb dt includeUnpublished
                p1 es Hd (ProcessFacts.parses_holds _ _ _ Hall _))
      as (p2 & E2 & _).
    rewrite E2, F1. reflexivity.
  - destruct (ProcessFacts.getAllExperiences_first_sight pe p es Hd
                (ProcessFacts.parses_holds _ _ _ Hall _)) as (p1 & E1 & F1).
    rewrite E1. cbn [fst snd]. eexists. split; [reflexivity|].
    fold root in F1. rewrite <- F1 in Hd, Hall.
    destruct (ProcessFacts.getAllExperiences_first_sight pe p1 es Hd
                (ProcessFacts.parses_holds _ _ _ Hall _)) as (p2 & E2 & _).
    rewrite E2, F1. reflexivity.
Qed.

Lemma X21_loads_agree_when_every_file_parses_witness :
  exists posts,
    fst (Process.getAllPosts Examples.post_matter Examples.post_getTime false
           (MoreExamples.started Examples.posts_mixed)) = Returned posts /\
    fst (Process.getAllPosts Examples.post_matter Examples.post_getTime false
           (snd (Process.getAllPosts Examples.post_matter
                   Examples.post_getTime false
                   (MoreExamples.started Examples.posts_mixed))))
      = Returned posts.
Proof.
  destruct (X21_loads_agree_when_every_file_parses Examples.venture_matter
              Examples.post_matter Examples.post_getTime
              Examples.experience_matter false
              (MoreExamples.started Examples.posts_mixed))
    as (_ & Hposts & _).
  exact (Hposts _ eq_refl eq_refl).
Defined.

(** ** Loading again *)

(** X22.  What a loader returns once the process has loaded the directory:
    for every listed file that can be read a record, whether gray-matter
    could parse the file or not.  A file that the YAML engine rejects is
    returned with the header [{}] and its whole text as content.  The load
    after that returns the same list.  No listed file is to have a text
    that names a member of [Object.prototype]. *)
Theorem X22_later_loads_keep_the_rejected_files pv pb dt pe
    includeUnpublished p :
  let root := fs (Process.world_of p) in
  let own := fun t => negb (GrayMatter.inherited t) in
  (forall es,
      Fs.lookup Ventures.venturesDirectory root = Some (Fs.Dir es) ->
      forallb own
        (FirstSight.texts Ventures.venturesDirectory root
           (Loader.slugs_of (map fst es))) = true ->
      let run := Process.getAllVentures pv in
      exists vs,
        fst (run (snd (run p))) = Returned (map Process.Full vs) /\
        fst (run (snd (run (snd (run p))))) = Returned (map Process.Full vs) /\
        forall r,
          In r vs <->
          Loader.on_disk Ventures.venturesDirectory
            (FirstSight.again Process.empty_venture pv) root r) /\
  (forall es,
      Fs.lookup Blog.POSTS_PATH root = Some (Fs.Dir es) ->
      forallb own
        (FirstSight.texts Blog.POSTS_PATH root
           (Loader.slugs_of (map fst es))) = true ->
      let run := Process.getAllPosts pb dt includeUnpublished in
      exists posts,
        fst (run (snd (run p))) = Returned (map Process.Full posts) /\
        fst (run (snd (run (snd (run p)))))
          = Returned (map Process.Full posts) /\
        forall r,
          In r posts <->
          Loader.on_disk Blog.POSTS_PATH
            (FirstSight.again Process.empty_post pb) root r /\
          (includeUnpublished = true \/
           Blog.published (frontmatter r) <> Some false)) /\
  (forall es,
      Fs.lookup Experiences.experiencesDirectory root = Some (Fs.Dir es) ->
      forallb own
        (FirstSight.texts Experiences.experiencesDirectory root
           (Loader.slugs_of (map fst es))) = true ->
      let run := Process.getAllExperiences pe in
      exists xs,
        fst (run (snd (run p))) = Returned (map Process.Full xs) /\
        fst (run (snd (run (snd (run p))))) = Returned (map Process.Full xs) /\
        forall r,
          In r xs <->
          Loader.on_disk Experiences.experiencesDirectory
            (FirstSight.again Process.empty_experience pe) root r).
Proof.
  intros root own. split; [|split]; intros es Hd Hown run.
  - destruct (ProcessFacts.load_twice_more Process.empty_venture pv
                Ventures.venturesDirectory "Error reading venture "
                Ventures.getAllVentureSlugs
                (Process.sorted_by Ventures.compareVentures)
                (Loader.slugs_of (map fst es)) p) as [E2 E3].
    { intros w Hw. apply ProcessFacts.listSlugs_listed. rewrite Hw.
      exact Hd. }
    { exact Hown. }
    rewrite ProcessFacts.sorted_by_full in E2, E3.
    eexists. split; [exact E2|]. split; [exact E3|].
    intros r. rewrite SortFacts.in_Array_sort.
    apply OnDisk.read_all_on_disk, Hd.
  - destruct (ProcessFacts.load_twice_more Process.empty_post pb
                Blog.POSTS_PATH "Error reading post " Blog.getAllPostSlugs
                (fun posts =>
                   match
                     filter_throwing (Process.keep_post includeUnpublished)
                       posts
                   with
                   | Some kept =>
                       Process.sorted_by (Blog.comparePosts dt) kept
                   | None => TypeError
                   end)
                (Loader.slugs_of (map fst es)) p) as [E2 E3].
    { intros w Hw. apply ProcessFacts.getAllPostSlugs_listed. rewrite Hw.
      exact Hd. }
    { exact Hown. }
    rewrite ProcessFacts.keep_post_full, ProcessFacts.sorted_by_full
      in E2, E3.
    eexists. split; [exact E2|]. split; [exact E3|].
    intros r. apply in_getAllPosts, Hd.
  - destruct (ProcessFacts.load_twice_more Process.empty_experience pe
                Experiences.experiencesDirectory "Error reading experience "
                Experiences.getAllExperienceSlugs
                (Process.sorted_by Experiences.compareExperiences)
                (Loader.slugs_of (map fst es)) p) as [E2 E3].
    { intros w Hw. apply ProcessFacts.listSlugs_listed. rewrite Hw.
      exact Hd. }
    { exact Hown. }
    rewrite ProcessFacts.sorted_by_full in E2, E3.
    eexists. split; [exact E2|]. split; [exact E3|].
    intros r. rewrite SortFacts.in_Array_sort.
    apply OnDisk.read_all_on_disk, Hd.
Qed.

Lemma X22_later_loads_keep_the_rejected_files_witness :
  exists posts,
    fst (Process.getAllPosts Examples.post_matter Examples.post_getTime false
           (snd (Process.getAllPosts Examples.post_matter
                   Examples.post_getTime false
                   (MoreExamples.started Examples.posts_damaged))))
      = Returned (map Process.Full posts) /\
    In (mkLoaded "broken" Process.empty_post MoreExamples.broken_text) posts.
Proof.
  destruct (X22_later_loads_keep_the_rejected_files Examples.venture_matter
              Examples.post_matter Examples.post_getTime
              Examples.experience_matter false
              (MoreExamples.started Examples.posts_damaged))
    as (_ & Hposts & _).
  destruct (Hposts _ eq_refl eq_refl) as (posts & E2 & _ & Hin).
  exists posts. split; [exact E2|].
  apply Hin. split; [|right; discriminate].
  exists [ ("bare.mdx", Fs.File "Just some text.");
           ("broken.mdx", Fs.File MoreExamples.broken_text);
           ("folder.mdx", Fs.Dir []);
           ("old.mdx", Fs.File (Examples.post_text "2024-01-01" None)) ],
    "broken.mdx", MoreExamples.broken_text.
  repeat split. right. left. reflexivity.
Defined.
